(** * Plot acquisition and validation: a shallow embedding of
      [scripts/plot_finder.py] and [scripts/web_plot_scraper.py]

    Texts are Python [str] values.  They are modelled as Rocq strings, one
    character per code point, for the code points below 256 (Latin-1): on
    that range [str.lower] and [str.strip] are the character maps written
    out below and never change the number of characters.

    A movie record is the JSON object of one file, a dictionary from field
    names to values; the fields the enrichment code reads and writes
    ([title], [year], [plot], [web_plot], [raw_web_plot], [plot_source],
    [last_updated]) hold strings, and the other fields are carried along
    untouched.

    The network (search API, page fetches, the generation service) is a
    record of response functions; every call made and every file written
    is appended to an event log, so that "no network call" and "nothing
    written" are statements about that log. *)

From Stdlib Require Import String Ascii List Bool Arith Lia.
From stdpp Require Import gmap strings.
Import ListNotations.
Open Scope string_scope.
Open Scope list_scope.
Open Scope nat_scope.

(** ** Python string operations *)

Module Py.

(** [str.isspace] on one character. *)
Definition isspace (c : ascii) : bool :=
  let n := nat_of_ascii c in
  ((9 <=? n) && (n <=? 13)) || ((28 <=? n) && (n <=? 32))
  || (n =? 133) || (n =? 160).

(** [str.lower] on one character: A-Z and the upper-case Latin-1 letters
    (U+00C0-U+00DE, the multiplication sign U+00D7 apart). *)
Definition lower_char (c : ascii) : ascii :=
  let n := nat_of_ascii c in
  if ((65 <=? n) && (n <=? 90))
     || ((192 <=? n) && (n <=? 222) && negb (n =? 215))
  then ascii_of_nat (n + 32) else c.

Fixpoint lower (s : string) : string :=
  match s with
  | EmptyString => EmptyString
  | String c s' => String (lower_char c) (lower s')
  end.

Fixpoint lstrip (s : string) : string :=
  match s with
  | EmptyString => EmptyString
  | String c s' => if isspace c then lstrip s' else s
  end.

Fixpoint rstrip (s : string) : string :=
  match s with
  | EmptyString => EmptyString
  | String c s' =>
      match rstrip s' with
      | EmptyString => if isspace c then EmptyString else String c EmptyString
      | r => String c r
      end
  end.

Definition strip (s : string) : string := rstrip (lstrip s).

Definition startswith (s pre : string) : bool := String.prefix pre s.

(** [needle in hay]. *)
Fixpoint contains (needle hay : string) : bool :=
  String.prefix needle hay
  || match hay with
     | EmptyString => false
     | String _ hay' => contains needle hay'
     end.

(** [s.split(sep)] for a one-character separator. *)
Fixpoint split (sep : ascii) (s : string) : list string :=
  match s with
  | EmptyString => [EmptyString]
  | String c s' =>
      if Ascii.eqb c sep then EmptyString :: split sep s'
      else match split sep s' with
           | [] => [String c EmptyString]
           | w :: ws => String c w :: ws
           end
  end.

(** [any(x in text for x in xs)]. *)
Definition any_in (xs : list string) (text : string) : bool :=
  existsb (fun x => contains x text) xs.

(** [sum(1 for x in xs if x in text)]. *)
Definition count_in (xs : list string) (text : string) : nat :=
  length (List.filter (fun x => contains x text) xs).

(** Truth value of a string: non-empty. *)
Definition truth (s : string) : bool := negb (String.length s =? 0).

(** [c * n]. *)
Fixpoint rep (n : nat) (s : string) : string :=
  match n with
  | O => EmptyString
  | S n' => s +:+ rep n' s
  end.

End Py.

(** ** The content validator, [PlotFinder._is_valid_plot_content] *)

Definition security_indicators : list string :=
  [ "cloudflare"; "security service"; "online attacks"; "ray id";
    "blocked"; "triggered the security solution"; "sql command";
    "malformed data"; "performance & security by";
    "this website is using a security service";
    "you were blocked"; "click to reveal"; "your ip" ].

Definition error_indicators : list string :=
  [ "404 not found"; "403 forbidden"; "500 internal server error";
    "page not found"; "access denied"; "server error";
    "temporarily unavailable"; "under maintenance" ].

Definition privacy_indicators : list string :=
  [ "cookie policy"; "privacy policy"; "gdpr"; "accept cookies";
    "we use cookies"; "consent"; "data protection";
    "terms of service"; "privacy notice" ].

Definition commercial_indicators : list string :=
  [ "subscribe now"; "sign up"; "create account"; "login required";
    "premium content"; "advertisement"; "sponsored content";
    "newsletter"; "follow us"; "social media" ].

Definition ui_indicators : list string :=
  [ "home page"; "contact us"; "about us"; "search results";
    "navigation menu"; "sidebar"; "footer"; "header";
    "click here"; "read more"; "load more" ].

Definition all_indicators : list string :=
  security_indicators ++ error_indicators ++ privacy_indicators
  ++ commercial_indicators ++ ui_indicators.

Definition simulated_patterns : list string :=
  [ "follows the journey of a protagonist who faces numerous challenges";
    "the film begins with an introduction to the main character";
    "inciting incident disrupts their routine";
    "explores themes of perseverance, identity, and the human condition";
    "offering viewers a compelling story that resonates on multiple levels" ].

Definition movie_keywords : list string :=
  [ "film"; "movie"; "story"; "plot"; "character"; "protagonist";
    "drama"; "comedy"; "thriller"; "romance"; "action";
    "directed"; "starring"; "cast"; "screenplay"; "cinema" ].

(** The number of noise indicators of a text and whether it names a movie
    keyword, both on the lower-cased text as the validator computes them. *)
Definition indicator_count (text : string) : nat :=
  Py.count_in all_indicators (Py.lower text).

Definition has_movie_keywords (text : string) : bool :=
  Py.any_in movie_keywords (Py.lower text).

Definition _is_valid_plot_content (text : string) : bool :=
  if negb (Py.truth text) || (String.length (Py.strip text) <? 100)
  then false
  else
    let text_lower := Py.lower text in
    let indicator_count := Py.count_in all_indicators text_lower in
    if 3 <=? indicator_count then false
    else if Py.any_in (firstn 5 security_indicators) text_lower then false
    else if Py.any_in simulated_patterns text_lower then false
    else
      let sentences := Py.split "." text in
      if length sentences <? 3 then false
      else
        let has_movie_keywords := Py.any_in movie_keywords text_lower in
        if (400 <=? String.length text) && has_movie_keywords
           && (indicator_count =? 0)
        then true
        else if (300 <=? String.length text) && has_movie_keywords
                && (indicator_count =? 0)
        then true
        else false.


(** ** The outside world: pages, responses, failures, events *)

(** The exceptions of the [requests] library the fetch code tells apart.
    [SSLError] and [ConnectTimeout] are subclasses of [ConnectionError];
    [ConnectTimeout] and [ReadTimeout] are subclasses of [Timeout]. *)
Inductive RequestError :=
  | SSLError | ConnectionError | ConnectTimeout | ReadTimeout
  | OtherRequestException.

Definition is_SSLError (e : RequestError) : bool :=
  match e with SSLError => true | _ => false end.
Definition is_ConnectionError (e : RequestError) : bool :=
  match e with SSLError | ConnectionError | ConnectTimeout => true | _ => false end.
Definition is_Timeout (e : RequestError) : bool :=
  match e with ConnectTimeout | ReadTimeout => true | _ => false end.

(** A parsed page, as far as the extraction code looks at it: a tag with
    its text; a heading ([find_all(['h2', 'h3'])]) with the chain of its
    [find_next_sibling()] tags; the texts of [find_all('p')]. *)
Record Element := { name : string; get_text : string }.
Record Heading := { heading_text : string; next_siblings : list Element }.
Record Soup := { headings : list Heading; paragraphs : list string }.

(** An HTTP response: whether [raise_for_status] passes, the
    [content-type] header when present, the parsed body. *)
Record Response :=
  { status_ok : bool; content_type : option string; soup : Soup }.

(** One entry of the [organic] list of a search reply. *)
Record SearchResult := { link : option string }.

Inductive Event :=
  | SerperPost (query : string)
  | SessionGet (url : string) (verify : bool)
  | HttpsSearch (query : string)
  | RequestsGet (url : string)
  | InvokeModel (model_id raw_text : string)
  | FileWrite (path : string) (data : gmap string string).

#[global] Instance RequestError_eq_dec : EqDecision RequestError.
Proof. solve_decision. Defined.
#[global] Instance Event_eq_dec : EqDecision Event.
Proof. solve_decision. Defined.

Definition is_network (e : Event) : bool :=
  match e with FileWrite _ _ => false | _ => true end.

(** What the services answer.  A search answers [None] on any exception,
    [Some None] with a reply without [organic], [Some (Some l)] otherwise;
    the generation service answers the text of its reply, [None] on any
    exception. *)
Record World := {
  serper : string -> option (option (list SearchResult));
  session_get : string -> bool -> RequestError + Response;
  https_search : string -> option (option (list SearchResult));
  requests_get : string -> RequestError + Response;
  invoke_model : string -> string -> string -> string -> string -> option string
}.

(** Computations that call the network: a value and the calls made, in
    order. *)
Definition Net (A : Type) : Type := (A * list Event)%type.

Definition ret {A} (a : A) : Net A := (a, []).
Definition bind {A B} (m : Net A) (f : A -> Net B) : Net B :=
  (fst (f (fst m)), snd m ++ snd (f (fst m))).
Definition call {A} (e : Event) (a : A) : Net A := (a, [e]).

Notation "x <- c1 ;; c2" := (bind c1 (fun x => c2))
  (at level 100, c1 at next level, right associativity).

(** ** Page extraction, shared by both scripts *)

Definition is_section_end (e : Element) : bool :=
  String.eqb (name e) "h2" || String.eqb (name e) "h3".

(** The [while current and current.name not in ['h2', 'h3']] loop. *)
Fixpoint collect_section (siblings : list Element) : string :=
  match siblings with
  | [] => ""
  | current :: rest =>
      if is_section_end current then ""
      else (if String.eqb (name current) "p"
            then Py.strip (get_text current) +:+ " " else "")
           +:+ collect_section rest
  end.

(** The loop over the headings, left at the first one that matches. *)
Fixpoint wikipedia_extraction (hs : list Heading) : string :=
  match hs with
  | [] => ""
  | heading :: hs' =>
      if Py.any_in ["plot"; "synopsis"; "story"] (Py.lower (heading_text heading))
      then collect_section (next_siblings heading)
      else wikipedia_extraction hs'
  end.

Definition boilerplate_words : list string :=
  ["cookie"; "privacy"; "consent"; "advertisement"; "subscribe"; "newsletter"].

Definition general_extraction (ps : list string) : string :=
  fold_left
    (fun plot_text p =>
       let text := Py.strip p in
       if (50 <? String.length text)
          && negb (Py.any_in boilerplate_words (Py.lower text))
       then plot_text +:+ text +:+ " " else plot_text)
    (firstn 15 ps) "".

Definition extract_text (url : string) (page : Soup) : string :=
  Py.strip (if Py.contains "wikipedia.org" url
            then wikipedia_extraction (headings page)
            else general_extraction (paragraphs page)).

(** ** The text cleaning after the generation service *)

(** [\w] and [\s] of Python's [re] on [str], and the punctuation the
    cleaning keeps. *)
Definition re_word (c : ascii) : bool :=
  let n := nat_of_ascii c in
  ((48 <=? n) && (n <=? 57)) || ((65 <=? n) && (n <=? 90)) || (n =? 95)
  || ((97 <=? n) && (n <=? 122)) || (n =? 170) || (n =? 178) || (n =? 179)
  || (n =? 181) || (n =? 185) || (n =? 186) || ((188 <=? n) && (n <=? 190))
  || ((192 <=? n) && (n <=? 214)) || ((216 <=? n) && (n <=? 246))
  || (248 <=? n).

Definition re_control (c : ascii) : bool :=
  let n := nat_of_ascii c in
  (n <=? 31) || ((127 <=? n) && (n <=? 159)).

(** The punctuation of the character class: . , ! ? ; : ( ) - and the
    single and double quotes (characters 39 and 34). *)
Definition re_punct (c : ascii) : bool :=
  Py.contains (String c EmptyString) ".,!?;:()-"
  || (nat_of_ascii c =? 39) || (nat_of_ascii c =? 34).

Fixpoint remove_chars (bad : ascii -> bool) (s : string) : string :=
  match s with
  | EmptyString => EmptyString
  | String c s' =>
      if bad c then remove_chars bad s' else String c (remove_chars bad s')
  end.

(** [re.sub(r'\\[nrt]', ' ', s)]: a backslash followed by n, r or t. *)
Fixpoint sub_escapes (s : string) : string :=
  match s with
  | EmptyString => EmptyString
  | String c s' =>
      if Ascii.eqb c "\" then
        match s' with
        | String d s'' =>
            if Ascii.eqb d "n" || Ascii.eqb d "r" || Ascii.eqb d "t"
            then String " " (sub_escapes s'')
            else String c (sub_escapes s')
        | EmptyString => String c EmptyString
        end
      else String c (sub_escapes s')
  end.

(** [re.sub(r'[bad]+', ' ', s)]: every maximal run of bad characters
    becomes one space; [in_run] says that the run has begun. *)
Fixpoint sub_runs (bad : ascii -> bool) (in_run : bool) (s : string) : string :=
  match s with
  | EmptyString => EmptyString
  | String c s' =>
      if bad c
      then (if in_run then sub_runs bad true s'
            else String " " (sub_runs bad true s'))
      else String c (sub_runs bad false s')
  end.

Definition clean_reply (clean_plot : string) : string :=
  let clean_plot := remove_chars re_control clean_plot in
  let clean_plot := sub_escapes clean_plot in
  let clean_plot :=
    sub_runs (fun c => negb (re_word c || Py.isspace c || re_punct c))
             false clean_plot in
  Py.strip (sub_runs Py.isspace false clean_plot).

(** The part of both [extract_plot_with_bedrock] functions after the
    reply has arrived. *)
Definition plot_of_reply (reply : option string) : option string :=
  match reply with
  | None => None
  | Some text =>
      let clean_plot := Py.strip text in
      if Py.contains "NO_PLOT_FOUND" clean_plot then None
      else
        let clean_plot := clean_reply clean_plot in
        if 300 <=? String.length clean_plot then Some clean_plot else None
  end.

(** ** [class PlotFinder] *)

Record PlotFinder :=
  { serper_api_key : string; bedrock_model_id : string }.

Definition _search_with_serper (self : PlotFinder) (w : World) (query : string)
  : Net (option (option (list SearchResult))) :=
  if negb (Py.truth (serper_api_key self)) then ret None
  else call (SerperPost query) (serper w query).

Definition problematic_domains : list string :=
  [ "revionz.safariinfosoft.com";
    "facebook.com"; "instagram.com"; "twitter.com"; "youtube.com";
    "linkedin.com"; "pinterest.com"; "tiktok.com"; "snapchat.com" ].

Definition _is_valid_url (url : string) : bool :=
  if negb (Py.truth url)
     || negb (Py.startswith url "http://" || Py.startswith url "https://")
  then false
  else negb (Py.any_in problematic_domains (Py.lower url)).

(** [_extract_plot_from_url] from [raise_for_status] on. *)
Definition plot_of_response (url : string) (response : Response) : option string :=
  if negb (status_ok response) then None
  else
    let content_type := Py.lower (default "" (content_type response)) in
    if negb (Py.contains "text/html" content_type) then None
    else
      let plot_text := extract_text url (soup response) in
      if _is_valid_plot_content plot_text then Some plot_text else None.

Definition _extract_plot_from_url (w : World) (url : string) : Net (option string) :=
  if negb (_is_valid_url url) then ret None
  else
    first <- call (SessionGet url true) (session_get w url true) ;;
    match first with
    | inr response => ret (plot_of_response url response)
    | inl e =>
        if is_SSLError e || is_ConnectionError e || is_Timeout e then
          second <- call (SessionGet url false) (session_get w url false) ;;
          match second with
          | inr response => ret (plot_of_response url response)
          | inl e' =>
              (* a timeout returns None; anything else is caught by the
                 enclosing handler, which returns None too *)
              if is_Timeout e' then ret None else ret None
          end
        else ret None
    end.

Definition _extract_plot_with_bedrock (self : PlotFinder) (w : World)
    (raw_text movie_title year existing_plot : string) : Net (option string) :=
  call (InvokeModel (bedrock_model_id self) raw_text)
       (plot_of_reply
          (invoke_model w (bedrock_model_id self) raw_text movie_title year
                        existing_plot)).

Definition skip_sites : list string :=
  [ "imdb.com"; "netflix.com"; "amazon.com"; "hulu.com"; "disney.com";
    "facebook.com"; "instagram.com"; "twitter.com"; "youtube.com";
    "linkedin.com"; "pinterest.com"; "tiktok.com" ].

Definition preferred_sites : list string :=
  [ "wikipedia.org"; "britannica.com"; "imdb.com" ].

Definition is_skipped (url : string) : bool :=
  Py.any_in skip_sites (Py.lower url).

Definition is_preferred (url : string) : bool :=
  Py.any_in preferred_sites (Py.lower url).

(** The two acceptance tests on an extracted plot, in the order of the
    code. *)
Definition accepts (is_preferred : bool) (plot : option string) : bool :=
  match plot with
  | None => false
  | Some p =>
      if Py.truth p && (400 <=? String.length p) then true
      else if Py.truth p && (300 <=? String.length p) && is_preferred then true
      else false
  end.

(** The loop over the results of one query. *)
Fixpoint scan_results (w : World) (results : list SearchResult)
  : Net (option string) :=
  match results with
  | [] => ret None
  | result :: rest =>
      let url := default "" (link result) in
      if negb (is_skipped url) then
        plot <- _extract_plot_from_url w url ;;
        if accepts (is_preferred url) plot then ret plot
        else scan_results w rest
      else scan_results w rest
  end.

(** The loop over the queries. *)
Fixpoint scan_queries (self : PlotFinder) (w : World) (queries : list string)
  : Net (option string) :=
  match queries with
  | [] => ret None
  | query :: rest =>
      search_results <- _search_with_serper self w query ;;
      match search_results with
      | Some (Some organic) =>
          found <- scan_results w (firstn 10 organic) ;;
          match found with
          | Some plot => ret (Some plot)
          | None => scan_queries self w rest
          end
      | _ => scan_queries self w rest
      end
  end.

Definition queries_for (movie_title year : string) : list string :=
  [ movie_title +:+ " " +:+ year +:+ " plot summary wikipedia";
    movie_title +:+ " " +:+ year +:+ " movie synopsis";
    movie_title +:+ " " +:+ year +:+ " story plot detailed" ].

Definition _search_movie_plot (self : PlotFinder) (w : World)
    (movie_title year : string) : Net (option string) :=
  scan_queries self w (queries_for movie_title year).

(** ** Files and the orchestrator, [PlotFinder.process_movie_file] *)

(** The movie files, by path, and everything that has happened so far. *)
Record State := {
  disk : gmap string (gmap string string);
  events : list Event
}.

Definition emit (evs : list Event) (s : State) : State :=
  {| disk := disk s; events := events s ++ evs |}.

(** [json.dump(movie_data, open(path, 'w'))]: the whole file is replaced. *)
Definition write_file (path : string) (data : gmap string string) (s : State)
  : State :=
  {| disk := <[path := data]> (disk s);
     events := events s ++ [FileWrite path data] |}.

Inductive Status := existing | adequate | updated (plot_length : nat).

Inductive Error :=
  | NoMovieTitleFound | NoValidPlotFound | PlotTooShort | NoSuitablePlotFound
  | Raised.

(** The dictionary [process_movie_file] returns. *)
Inductive Result :=
  | Success (movie_title : string) (status : Status)
  | Failure (error : Error) (movie_title : option string).

#[global] Instance State_eq_dec : EqDecision State.
Proof. solve_decision. Defined.
#[global] Instance Status_eq_dec : EqDecision Status.
Proof. solve_decision. Defined.
#[global] Instance Error_eq_dec : EqDecision Error.
Proof. solve_decision. Defined.
#[global] Instance Result_eq_dec : EqDecision Result.
Proof. solve_decision. Defined.

Definition field (key : string) (movie_data : gmap string string) : string :=
  default "" (movie_data !! key).

Definition clear_web_plot (movie_data : gmap string string)
  : gmap string string :=
  <["plot_source" := ""]> (<["web_plot" := ""]> movie_data).

Definition process_movie_file (self : PlotFinder) (w : World)
    (today movie_file_path : string) (s : State) : Result * State :=
  match disk s !! movie_file_path with
  | None => (Failure Raised None, s)
  | Some movie_data =>
    let movie_title := field "title" movie_data in
    if negb (Py.truth movie_title) then (Failure NoMovieTitleFound None, s)
    else
    let current_plot := field "plot" movie_data in
    let web_plot := field "web_plot" movie_data in
    if (400 <=? String.length web_plot) && _is_valid_plot_content web_plot
    then (Success movie_title existing, s)
    else
    let movie_data :=
      if Py.truth web_plot && negb (_is_valid_plot_content web_plot)
      then clear_web_plot movie_data else movie_data in
    if 800 <=? String.length current_plot
    then (Success movie_title adequate, s)
    else
    let year := field "year" movie_data in
    let search := _search_movie_plot self w movie_title year in
    let s := emit (snd search) s in
    match fst search with
    | None => (Failure NoValidPlotFound (Some movie_title), s)
    | Some enhanced_plot =>
      if negb (Py.truth enhanced_plot)
      then (Failure NoValidPlotFound (Some movie_title), s)
      else if String.length enhanced_plot <? 200
      then (Failure PlotTooShort (Some movie_title), s)
      else
      let cleaning :=
        _extract_plot_with_bedrock self w enhanced_plot movie_title year
                                   current_plot in
      let s := emit (snd cleaning) s in
      let updated_data :=
        match fst cleaning with
        | Some clean_plot =>
            if Py.truth clean_plot && (300 <=? String.length clean_plot)
            then Some (<["plot_source" := "web_scraped_bedrock_cleaned"]>
                       (<["raw_web_plot" := enhanced_plot]>
                        (<["web_plot" := clean_plot]> movie_data)))
            else if Py.truth enhanced_plot
            then Some (<["plot_source" := "web_scraped"]>
                       (<["web_plot" := enhanced_plot]> movie_data))
            else None
        | None =>
            if Py.truth enhanced_plot
            then Some (<["plot_source" := "web_scraped"]>
                       (<["web_plot" := enhanced_plot]> movie_data))
            else None
        end in
      match updated_data with
      | None => (Failure NoSuitablePlotFound None, s)
      | Some movie_data =>
          let movie_data := <["last_updated" := today]> movie_data in
          (Success movie_title
                   (updated (String.length (field "web_plot" movie_data))),
           write_file movie_file_path movie_data s)
      end
    end
  end.

(** ** The maintenance pass, [clean_invalid_plots] *)

(** One turn of the loop over the movie files: the count so far and the
    state. *)
Definition clean_file (today : string) (acc : nat * State) (movie_file : string)
  : nat * State :=
  match disk (snd acc) !! movie_file with
  | None => acc
  | Some movie_data =>
      let web_plot := field "web_plot" movie_data in
      if Py.truth web_plot && negb (_is_valid_plot_content web_plot)
      then (S (fst acc),
            write_file movie_file
              (<["last_updated" := today]> (clear_web_plot movie_data))
              (snd acc))
      else acc
  end.

(** [movies_dir] is the list of the [*.json] files of the directory, or
    [None] when the directory does not exist. *)
Definition clean_invalid_plots (today : string)
    (movies_dir : option (list string)) (s : State) : bool * State :=
  match movies_dir with
  | None => (false, s)
  | Some movie_files =>
      let done := fold_left (clean_file today) movie_files (0, s) in
      (0 <? fst done, snd done)
  end.

(** ** The batch drivers and the command line of [plot_finder.py] *)

(** The three counters of a batch. *)
Record Counts := {
  successful_updates : nat;
  skipped_files : nat;
  failed_files : nat
}.

Definition no_counts : Counts :=
  {| successful_updates := 0; skipped_files := 0; failed_files := 0 |}.

Definition count_result (c : Counts) (result : Result) : Counts :=
  match result with
  | Success _ (updated _) =>
      {| successful_updates := S (successful_updates c);
         skipped_files := skipped_files c;
         failed_files := failed_files c |}
  | Success _ _ =>
      {| successful_updates := successful_updates c;
         skipped_files := S (skipped_files c);
         failed_files := failed_files c |}
  | Failure _ _ =>
      {| successful_updates := successful_updates c;
         skipped_files := skipped_files c;
         failed_files := S (failed_files c) |}
  end.

(** One turn of the loop over the movie files, the same in both
    drivers. *)
Definition process_next (self : PlotFinder) (w : World) (today : string)
    (acc : Counts * State) (movie_file : string) : Counts * State :=
  let out := process_movie_file self w today movie_file (snd acc) in
  (count_result (fst acc) (fst out), snd out).

(** [movies_dir] is the listing of the directory, as for the maintenance
    pass. *)
Definition process_all_movies (self : PlotFinder) (w : World) (today : string)
    (movies_dir : option (list string)) (s : State) : bool * State :=
  match movies_dir with
  | None => (false, s)
  | Some [] => (false, s)
  | Some movie_files =>
      let done := fold_left (process_next self w today) movie_files
                            (no_counts, s) in
      (0 <? successful_updates (fst done), snd done)
  end.

(** [PlotFinder(serper_api_key=key)]: an empty key falls back on the
    environment variable the constructor names. *)
Definition new_PlotFinder (getenv : string -> string) (serper_api_key : string)
  : PlotFinder :=
  {| serper_api_key :=
       if Py.truth serper_api_key then serper_api_key
       else getenv "67d87a4af42c77c8990778dde14f5d051e0464b2";
     bedrock_model_id := "anthropic.claude-3-sonnet-20240229-v1:0" |}.

(** The dictionary [enhance_movie_plots_from_directory] returns. *)
Inductive Summary :=
  | SummaryFailure (error : string)
  | SummaryCounts (total_files updated_n skipped_n failed_n : nat).

Definition enhance_movie_plots_from_directory (getenv : string -> string)
    (w : World) (today : string) (movies_dir : option (list string))
    (serper_api_key : string) (s : State) : Summary * State :=
  let plot_finder := new_PlotFinder getenv serper_api_key in
  match movies_dir with
  | None => (SummaryFailure "Movies directory not found", s)
  | Some [] => (SummaryFailure "No movie files found", s)
  | Some movie_files =>
      let done := fold_left (process_next plot_finder w today) movie_files
                            (no_counts, s) in
      (SummaryCounts (length movie_files)
                     (successful_updates (fst done))
                     (skipped_files (fst done))
                     (failed_files (fst done)),
       snd done)
  end.

(** The parsed command line; an absent option is the empty string. *)
Record Args := {
  arg_movies_dir : string;
  arg_serper_key : string;
  arg_single_file : string;
  arg_clean_invalid : bool
}.

(** The process environment: the variables, the directory of the script's
    data, the listing of a directory ([None] when it does not exist). *)
Record Env := {
  getenv : string -> string;
  default_movies_dir : string;
  listing : string -> option (list string)
}.

Definition main (env : Env) (w : World) (today : string) (args : Args)
    (s : State) : bool * State :=
  let movies_dir :=
    if negb (Py.truth (arg_movies_dir args)) then default_movies_dir env
    else arg_movies_dir args in
  let plot_finder := new_PlotFinder (getenv env) (arg_serper_key args) in
  if arg_clean_invalid args then
    clean_invalid_plots today (listing env movies_dir) s
  else if Py.truth (arg_single_file args) then
    let out := process_movie_file plot_finder w today (arg_single_file args) s in
    (match fst out with Success _ _ => true | Failure _ _ => false end, snd out)
  else process_all_movies plot_finder w today (listing env movies_dir) s.

(** [sys.exit(0 if success else 1)]. *)
Definition exit_status (success : bool) : nat := if success then 0 else 1.

(** ** The second implementation, [scripts/web_plot_scraper.py] *)

Module WebPlotScraper.

Definition BEDROCK_MODEL_ID : string :=
  "us.anthropic.claude-3-5-haiku-20241022-v1:0".

Definition search_with_serper (w : World) (query : string)
  : Net (option (option (list SearchResult))) :=
  call (HttpsSearch query) (https_search w query).

Definition extract_plot_from_url (w : World) (url : string)
  : Net (option string) :=
  got <- call (RequestsGet url) (requests_get w url) ;;
  match got with
  | inr response =>
      let plot_text := extract_text url (soup response) in
      ret (if 300 <=? String.length plot_text then Some plot_text else None)
  | inl _ => ret None
  end.

Definition extract_plot_with_bedrock (w : World)
    (raw_text movie_title year existing_plot : string) : Net (option string) :=
  call (InvokeModel BEDROCK_MODEL_ID raw_text)
       (plot_of_reply
          (invoke_model w BEDROCK_MODEL_ID raw_text movie_title year
                        existing_plot)).

Definition storefronts : list string :=
  [ "imdb.com"; "netflix.com"; "amazon.com"; "hulu.com"; "disney.com" ].

Fixpoint scan_results (w : World) (results : list SearchResult)
  : Net (option string) :=
  match results with
  | [] => ret None
  | result :: rest =>
      let url := default "" (link result) in
      if negb (Py.any_in storefronts url) then
        plot <- extract_plot_from_url w url ;;
        match plot with
        | Some p =>
            if Py.truth p && (500 <=? String.length p) then ret (Some p)
            else scan_results w rest
        | None => scan_results w rest
        end
      else scan_results w rest
  end.

Fixpoint scan_queries (w : World) (queries : list string) : Net (option string) :=
  match queries with
  | [] => ret None
  | query :: rest =>
      search_results <- search_with_serper w query ;;
      match search_results with
      | Some (Some organic) =>
          found <- scan_results w (firstn 10 organic) ;;
          match found with
          | Some plot => ret (Some plot)
          | None => scan_queries w rest
          end
      | _ => scan_queries w rest
      end
  end.

Definition search_movie_plot (w : World) (movie_title year : string)
  : Net (option string) :=
  scan_queries w (queries_for movie_title year).

Definition update_movie_plot (w : World) (today movie_file_path : string)
    (s : State) : State :=
  match disk s !! movie_file_path with
  | None => s
  | Some movie_data =>
    let title := field "title" movie_data in
    let year := field "year" movie_data in
    let current_plot := field "plot" movie_data in
    if 500 <=? String.length current_plot then s
    else
    let search := search_movie_plot w title year in
    let s := emit (snd search) s in
    match fst search with
    | None => s
    | Some web_plot =>
      if Py.truth web_plot && (500 <=? String.length web_plot) then
        let cleaning :=
          extract_plot_with_bedrock w web_plot title year current_plot in
        let s := emit (snd cleaning) s in
        let movie_data :=
          match fst cleaning with
          | Some clean_plot =>
              if Py.truth clean_plot
              then <["plot_source" := "web_scraped_bedrock_cleaned"]>
                   (<["raw_web_plot" := web_plot]>
                    (<["web_plot" := clean_plot]> movie_data))
              else <["plot_source" := "web_scraped"]>
                   (<["web_plot" := web_plot]> movie_data)
          | None =>
              <["plot_source" := "web_scraped"]>
              (<["web_plot" := web_plot]> movie_data)
          end in
        write_file movie_file_path (<["last_updated" := today]> movie_data) s
      else s
    end
  end.

(** [main]: every movie file in turn. *)
Definition main (w : World) (today : string) (movies_dir : option (list string))
    (s : State) : State :=
  match movies_dir with
  | None => s
  | Some movie_files =>
      fold_left (fun s movie_file => update_movie_plot w today movie_file s)
                movie_files s
  end.

End WebPlotScraper.

(** ** Dropping the enrichment, [scripts/clean_movie_data.py] *)

Module CleanMovieData.

Definition fields_to_remove : list string :=
  ["web_plot"; "raw_web_plot"; "plot_source"].

(** One turn of the loop over the fields: the record and the fields
    removed so far. *)
Definition remove_field (acc : gmap string string * list string)
    (field : string) : gmap string string * list string :=
  match fst acc !! field with
  | Some _ => (delete field (fst acc), snd acc ++ [field])
  | None => acc
  end.

Definition clean_movie_file (movie_file_path : string) (s : State) : State :=
  match disk s !! movie_file_path with
  | None => s
  | Some movie_data =>
      let done := fold_left remove_field fields_to_remove (movie_data, []) in
      match snd done with
      | [] => s
      | _ :: _ => write_file movie_file_path (fst done) s
      end
  end.

Definition main (movies_dir : option (list string)) (s : State) : State :=
  match movies_dir with
  | None => s
  | Some movie_files =>
      fold_left (fun s movie_file => clean_movie_file movie_file s)
                movie_files s
  end.

End CleanMovieData.

(** ** The search loop in the words of the specification *)

(** What extraction yields for a URL, and the URLs fetched with
    certificate verification among the events of a run. *)
Definition extracted (w : World) (url : string) : option string :=
  fst (_extract_plot_from_url w url).

Definition fetched (evs : list Event) : list string :=
  flat_map (fun e => match e with SessionGet u true => [u] | _ => [] end) evs.

Definition organic_of (self : PlotFinder) (w : World) (query : string)
  : list SearchResult :=
  match fst (_search_with_serper self w query) with
  | Some (Some organic) => organic
  | _ => []
  end.

Definition url_of (result : SearchResult) : string := default "" (link result).

Definition unskipped (results : list SearchResult) : list string :=
  List.filter (fun u => negb (is_skipped u)) (map url_of results).

(** The URLs considered for a query: those of its first ten results, the
    hosts of the skip list apart; the candidates of a movie, query after
    query. *)
Definition considered (self : PlotFinder) (w : World) (query : string)
  : list string :=
  List.filter (fun u => negb (is_skipped u))
              (map url_of (firstn 10 (organic_of self w query))).

Definition candidates (self : PlotFinder) (w : World) (movie_title year : string)
  : list string :=
  flat_map (considered self w) (queries_for movie_title year).

(** The strict floor for any host, the relaxed one for a preferred host. *)
Definition meets_floor (url plot : string) : bool :=
  (400 <=? String.length plot)
  || (is_preferred url && (300 <=? String.length plot)).

Definition is_match (w : World) (url : string) : bool :=
  match extracted w url with
  | Some plot => meets_floor url plot
  | None => false
  end.

(** The extracted text of the first candidate that meets its floor. *)
Fixpoint first_match (w : World) (urls : list string) : option string :=
  match urls with
  | [] => None
  | u :: rest => if is_match w u then extracted w u else first_match w rest
  end.

(** The candidates up to the first match, that one included. *)
Fixpoint scanned (w : World) (urls : list string) : list string :=
  match urls with
  | [] => []
  | u :: rest => u :: (if is_match w u then [] else scanned w rest)
  end.

(** ** The orchestrator in the words of the specification *)

(** The eligibility check: a record reaches the search stage when it has a
    title, its enriched plot is not already adequate, and its base plot is
    shorter than 800 characters. *)
Definition already_enhanced (movie_data : gmap string string) : bool :=
  (400 <=? String.length (field "web_plot" movie_data))
  && _is_valid_plot_content (field "web_plot" movie_data).

Definition eligible (movie_data : gmap string string) : bool :=
  Py.truth (field "title" movie_data)
  && negb (already_enhanced movie_data)
  && (String.length (field "plot" movie_data) <? 800).

(** The record the search stage works on: an enriched plot that fails the
    validator is cleared first. *)
Definition refreshed (movie_data : gmap string string) : gmap string string :=
  if Py.truth (field "web_plot" movie_data)
     && negb (_is_valid_plot_content (field "web_plot" movie_data))
  then clear_web_plot movie_data else movie_data.

(** The record that is committed: cleaned text and raw candidate, or the
    raw candidate alone. *)
Definition committed (today raw : string) (clean : option string)
    (movie_data : gmap string string) : gmap string string :=
  <["last_updated" := today]>
    match clean with
    | Some clean_plot =>
        <["plot_source" := "web_scraped_bedrock_cleaned"]>
          (<["raw_web_plot" := raw]> (<["web_plot" := clean_plot]> movie_data))
    | None =>
        <["plot_source" := "web_scraped"]> (<["web_plot" := raw]> movie_data)
    end.

(** The invariant of a record: an enriched plot, when there is one, has a
    provenance tag of the fixed vocabulary. *)
Definition provenance_ok (movie_data : gmap string string) : Prop :=
  Py.truth (field "web_plot" movie_data) = true ->
  field "plot_source" movie_data = "web_scraped"
  \/ field "plot_source" movie_data = "web_scraped_bedrock_cleaned".

(** Every record on disk has the invariant. *)
Definition disk_ok (s : State) : Prop :=
  forall path movie_data, disk s !! path = Some movie_data ->
                          provenance_ok movie_data.

(** The record the maintenance pass writes over an invalid one. *)
Definition blanked (today : string) (movie_data : gmap string string)
  : gmap string string :=
  <["last_updated" := today]> (clear_web_plot movie_data).

(** The records written among the events of a run. *)
Definition written (evs : list Event) : list (gmap string string) :=
  flat_map (fun e => match e with FileWrite _ data => [data] | _ => [] end) evs.

(** A step from [s] to [s'] keeps the invariant: the records it has
    written all have it, and so has every record on disk afterwards when
    every record had it before. *)
Definition step_ok (s s' : State) : Prop :=
  (exists evs, events s' = events s ++ evs
               /\ Forall provenance_ok (written evs))
  /\ (disk_ok s -> disk_ok s').

(** ** Further notions for the properties *)

(** The queries posted to the search API among the events of a run. *)
Definition posted (evs : list Event) : list string :=
  flat_map (fun e => match e with SerperPost q => [q] | _ => [] end) evs.

(** What the search loop may do: post a query, or request a URL that
    passes the URL check and is not on the skip list. *)
Definition search_event_ok (e : Event) : Prop :=
  match e with
  | SerperPost _ => True
  | SessionGet url _ => _is_valid_url url = true /\ is_skipped url = false
  | _ => False
  end.

(** Every character of a string passes a test. *)
Fixpoint all_chars (ok : ascii -> bool) (s : string) : bool :=
  match s with
  | EmptyString => true
  | String c s' => ok c && all_chars ok s'
  end.

(** The characters the cleaning lets through: word characters, the kept
    punctuation, the plain space. *)
Definition clean_char (c : ascii) : bool :=
  re_word c || re_punct c || Ascii.eqb c " ".

(** No white space at the end and none after white space; [after_space]
    says that the previous character was white space (or that the string
    begins here). *)
Fixpoint tidy_from (after_space : bool) (s : string) : bool :=
  match s with
  | EmptyString => negb after_space
  | String c s' =>
      if Py.isspace c then negb after_space && tidy_from true s'
      else tidy_from false s'
  end.

(** Empty, or without white space at either end and with single spaces
    inside. *)
Definition tidy (s : string) : bool :=
  match s with
  | EmptyString => true
  | _ => tidy_from true s
  end.

(** No white space after white space, the end apart. *)
Fixpoint spaced_from (after_space : bool) (s : string) : bool :=
  match s with
  | EmptyString => true
  | String c s' =>
      if Py.isspace c then negb after_space && spaced_from true s'
      else spaced_from false s'
  end.

(** Nothing for the maintenance pass to do on a file: it is missing, or
    its enriched plot is empty or passes the validator. *)
Definition settled (s : State) (movie_file : string) : Prop :=
  forall movie_data, disk s !! movie_file = Some movie_data ->
    Py.truth (field "web_plot" movie_data)
    && negb (_is_valid_plot_content (field "web_plot" movie_data)) = false.

(** A record without the three enrichment fields. *)
Definition stripped (movie_data : gmap string string) : gmap string string :=
  delete "plot_source" (delete "raw_web_plot" (delete "web_plot" movie_data)).

Definition has_enrichment (movie_data : gmap string string) : bool :=
  bool_decide (is_Some (movie_data !! "web_plot"))
  || bool_decide (is_Some (movie_data !! "raw_web_plot"))
  || bool_decide (is_Some (movie_data !! "plot_source")).

(** The files a batch has counted. *)
Definition total_count (c : Counts) : nat :=
  successful_updates c + skipped_files c + failed_files c.


(** ** Sample inputs *)

Module Sample.

(** Three sentences about a film, then [n] more letters: [36 + n]
    characters, no noise indicator. *)
Definition prose (n : nat) : string :=
  "The film tells a story. It is long. " +:+ Py.rep n "a".

Definition plot_450 : string := prose 414.
Definition plot_350 : string := prose 314.

(** 400 characters that name a film and hold no period. *)
Definition one_sentence : string := "film" +:+ Py.rep 396 "a".

Definition page (text : string) : Soup :=
  {| headings :=
       [ {| heading_text := "Plot";
            next_siblings := [ {| name := "p"; get_text := text |};
                               {| name := "h2"; get_text := "Cast" |} ] |} ];
     paragraphs := [text] |}.

Definition html (text : string) : Response :=
  {| status_ok := true;
     content_type := Some "text/html; charset=UTF-8";
     soup := page text |}.

Definition no_search (_ : string) : option (option (list SearchResult)) := None.
Definition no_reply (_ _ _ _ _ : string) : option string := None.

(** The first, verified request times out; the unverified one is
    answered. *)
Definition slow_then_answered : World :=
  {| serper := no_search;
     session_get := fun _ verify =>
       if verify then inl ReadTimeout else inr (html plot_450);
     https_search := no_search;
     requests_get := fun _ => inl ReadTimeout;
     invoke_model := no_reply |}.

(** One search result, a page about the film on an encyclopedia; the
    generation service is out of reach. *)
Definition encyclopedia_url : string := "https://en.wikipedia.org/wiki/Test_Film".

Definition one_result (url : string) (_ : string)
  : option (option (list SearchResult)) :=
  Some (Some [ {| link := Some url |} ]).

Definition short_article : World :=
  {| serper := one_result encyclopedia_url;
     session_get := fun _ _ => inr (html plot_350);
     https_search := one_result encyclopedia_url;
     requests_get := fun _ => inr (html plot_350);
     invoke_model := no_reply |}.

(** The 350 characters on a host that is not preferred. *)
Definition review_url : string := "https://example.com/review".

Definition short_review : World :=
  {| serper := one_result review_url;
     session_get := fun _ _ => inr (html plot_350);
     https_search := one_result review_url;
     requests_get := fun _ => inr (html plot_350);
     invoke_model := no_reply |}.

(** The same, with an article of 450 characters. *)
Definition long_article : World :=
  {| serper := one_result encyclopedia_url;
     session_get := fun _ _ => inr (html plot_450);
     https_search := one_result encyclopedia_url;
     requests_get := fun _ => inr (html plot_450);
     invoke_model := no_reply |}.

(** A cookie-consent notice, and a world where every page is that
    notice. *)
Definition banner : string :=
  Py.rep 4 ("We use cookies on this film site. Please accept cookies "
            +:+ "or read our cookie policy and privacy policy. ").

Definition cookie_walls : World :=
  {| serper := one_result encyclopedia_url;
     session_get := fun _ _ => inr (html banner);
     https_search := one_result encyclopedia_url;
     requests_get := fun _ => inr (html banner);
     invoke_model := no_reply |}.

Definition finder : PlotFinder :=
  {| serper_api_key := "key";
     bedrock_model_id := "anthropic.claude-3-sonnet-20240229-v1:0" |}.

Definition movie_file : string := "data/movies/test_film_2020.json".

Definition record : gmap string string :=
  <["title" := "Test Film"]> (<["year" := "2020"]> (<["plot" := "short"]> ∅)).

(** One movie file, nothing has happened yet. *)
Definition fresh : State :=
  {| disk := <[movie_file := record]> ∅; events := [] |}.

(** A record whose enriched plot is the cookie notice. *)
Definition spoiled : gmap string string :=
  <["web_plot" := banner]> (<["plot_source" := "web_scraped"]> record).

Definition spoiled_disk : State :=
  {| disk := <[movie_file := spoiled]> ∅; events := [] |}.

End Sample.

(** ** More sample inputs *)

Module Fixture.

(** The generation service answers with markup around 340 characters. *)
Definition chatty : World :=
  {| serper := Sample.one_result Sample.encyclopedia_url;
     session_get := fun _ _ => inr (Sample.html Sample.plot_450);
     https_search := Sample.one_result Sample.encyclopedia_url;
     requests_get := fun _ => inr (Sample.html Sample.plot_450);
     invoke_model := fun _ _ _ _ _ =>
       Some ("<p>Here  is the plot:</p>\n " +:+ Sample.prose 304 +:+ "  ") |}.

(** The state after the enrichment with the article of 450 characters. *)
Definition enriched : State :=
  snd (process_movie_file Sample.finder Sample.long_article "2024-05-01"
                          Sample.movie_file Sample.fresh).

Definition shell : Env :=
  {| getenv := fun _ => "";
     default_movies_dir := "data/movies";
     listing := fun dir => if String.eqb dir "data/movies"
                           then Some [Sample.movie_file] else None |}.

Definition batch_args : Args :=
  {| arg_movies_dir := ""; arg_serper_key := "key"; arg_single_file := "";
     arg_clean_invalid := false |}.

End Fixture.


(** * Properties *)

(** Closed decidable goals are settled by evaluation. *)
Ltac by_computation := apply (bool_decide_unpack _); vm_compute; exact I.

(** ** Strings *)

Lemma truth_length (s : string) : Py.truth s = true <-> 0 < String.length s.
Proof.
  unfold Py.truth. rewrite negb_true_iff, Nat.eqb_neq. lia.
Qed.

Lemma count_in_zero (xs : list string) (text : string) :
  Py.count_in xs text = 0 ->
  forall x, In x xs -> Py.contains x text = false.
Proof.
  unfold Py.count_in. induction xs as [|y ys IH]; simpl; [tauto|].
  destruct (Py.contains y text) eqn:Hy; simpl; [discriminate|].
  intros Hz x [<-|Hin]; auto.
Qed.

Lemma any_in_false (xs : list string) (text : string) :
  (forall x, In x xs -> Py.contains x text = false) ->
  Py.any_in xs text = false.
Proof.
  unfold Py.any_in. induction xs as [|y ys IH]; simpl; [reflexivity|].
  intros H. rewrite (H y) by auto. simpl. apply IH. auto.
Qed.

Lemma any_in_true (xs : list string) (text : string) :
  Py.any_in xs text = true -> exists x, In x xs /\ Py.contains x text = true.
Proof.
  unfold Py.any_in. rewrite existsb_exists. auto.
Qed.

Lemma top_security_in_all :
  forall x, In x (firstn 5 security_indicators) -> In x all_indicators.
Proof.
  intros x H. unfold all_indicators. apply in_or_app. left.
  unfold security_indicators in *. simpl in *. tauto.
Qed.

Lemma no_indicator_no_security (text_lower : string) :
  Py.count_in all_indicators text_lower = 0 ->
  Py.any_in (firstn 5 security_indicators) text_lower = false.
Proof.
  intros H. apply any_in_false. intros x Hx.
  apply (count_in_zero _ _ H), top_security_in_all, Hx.
Qed.

(** ** The validator *)

(** The verdict, as one conjunction of the tests the code makes. *)
Lemma valid_iff (text : string) :
  _is_valid_plot_content text = true <->
  300 <= String.length text /\
  100 <= String.length (Py.strip text) /\
  indicator_count text = 0 /\
  Py.any_in simulated_patterns (Py.lower text) = false /\
  3 <= length (Py.split "." text) /\
  has_movie_keywords text = true.
Proof.
  unfold _is_valid_plot_content, indicator_count, has_movie_keywords.
  destruct (Py.truth text) eqn:Ht; cbn [negb orb].
  2:{ split; [discriminate|]. intros [H _].
      assert (Py.truth text = true) by (apply truth_length; lia). congruence. }
  destruct (String.length (Py.strip text) <? 100) eqn:Hs.
  { apply Nat.ltb_lt in Hs. split; [discriminate|]. lia. }
  apply Nat.ltb_ge in Hs.
  set (n := Py.count_in all_indicators (Py.lower text)).
  set (sec := Py.any_in (firstn 5 security_indicators) (Py.lower text)).
  set (sim := Py.any_in simulated_patterns (Py.lower text)).
  set (kw := Py.any_in movie_keywords (Py.lower text)).
  destruct (Nat.eqb_spec n 0) as [Hn|Hn].
  2:{ rewrite !andb_false_r.
      destruct (3 <=? n), sec, sim, (length (Py.split "." text) <? 3);
        (split; [discriminate|tauto]). }
  assert (Hsec : sec = false) by (apply no_indicator_no_security, Hn).
  rewrite Hn, Hsec. change (3 <=? 0) with false. cbv iota.
  destruct sim.
  { split; [discriminate|]. intros (_ & _ & _ & H & _). discriminate. }
  destruct (length (Py.split "." text) <? 3) eqn:Hseg.
  { apply Nat.ltb_lt in Hseg. split; [discriminate|]. lia. }
  apply Nat.ltb_ge in Hseg.
  destruct kw.
  2:{ rewrite !andb_false_r. split; [discriminate|].
      intros (_ & _ & _ & _ & _ & H). discriminate. }
  rewrite !andb_true_r.
  destruct (400 <=? String.length text) eqn:H4.
  { apply Nat.leb_le in H4. split; [|reflexivity]. intros _.
    repeat split; auto; lia. }
  destruct (300 <=? String.length text) eqn:H3.
  { apply Nat.leb_le in H3. split; [|reflexivity]. intros _.
    repeat split; auto. }
  apply Nat.leb_gt in H3. split; [discriminate|]. lia.
Qed.

(** C1, as amended.  A text of at least 400 characters that names a movie
    keyword and holds no noise indicator is accepted by
    [_is_valid_plot_content] when it also passes the validator's other
    tests: at least 100 characters once stripped of surrounding white
    space, at least three segments when split on the period, and none of
    the five template sentences of the fallback generators. *)
Theorem valid_strict_floor (text : string) :
  400 <= String.length text ->
  has_movie_keywords text = true ->
  indicator_count text = 0 ->
  100 <= String.length (Py.strip text) ->
  3 <= length (Py.split "." text) ->
  Py.any_in simulated_patterns (Py.lower text) = false ->
  _is_valid_plot_content text = true.
Proof.
  intros Hlen Hkw Hcount Hstrip Hseg Hsim.
  apply valid_iff. repeat split; auto. lia.
Qed.

Lemma valid_strict_floor_witness :
  _is_valid_plot_content Sample.plot_450 = true.
Proof.
  apply (valid_strict_floor Sample.plot_450);
    vm_compute; try reflexivity; lia.
Defined.

(** C1 as stated fails: 400 characters with a movie keyword and no noise
    indicator, but no period, are rejected. *)
Lemma strict_floor_needs_sentences :
  ~ (forall text : string,
        400 <= String.length text ->
        has_movie_keywords text = true ->
        indicator_count text = 0 ->
        _is_valid_plot_content text = true).
Proof.
  intros H. specialize (H Sample.one_sentence).
  assert (Hrej : _is_valid_plot_content Sample.one_sentence = false)
    by (vm_compute; reflexivity).
  rewrite H in Hrej; [discriminate| | |]; vm_compute; try reflexivity; lia.
Qed.

Lemma accepts_floor (is_pref : bool) (p : string) :
  accepts is_pref (Some p) =
  (400 <=? String.length p) || ((300 <=? String.length p) && is_pref).
Proof.
  unfold accepts.
  destruct (400 <=? String.length p) eqn:H4, (300 <=? String.length p) eqn:H3,
    (Py.truth p) eqn:Ht, is_pref; try reflexivity;
    apply Nat.leb_le in H4 || apply Nat.leb_le in H3;
    (assert (Py.truth p = true) by (apply truth_length; lia)); congruence.
Qed.

(** C2, as amended.  A text of at least 300 and fewer than 400 characters
    that names a movie keyword, holds no noise indicator and passes the
    validator's structural tests is accepted by [_is_valid_plot_content]
    whatever its source, for the validator takes no source flag; the
    search loop is what restricts such a text to preferred sources: its
    acceptance test passes exactly when the URL is a preferred one. *)
Theorem valid_relaxed_floor (text : string) :
  300 <= String.length text ->
  String.length text < 400 ->
  has_movie_keywords text = true ->
  indicator_count text = 0 ->
  100 <= String.length (Py.strip text) ->
  3 <= length (Py.split "." text) ->
  Py.any_in simulated_patterns (Py.lower text) = false ->
  _is_valid_plot_content text = true /\
  forall is_pref : bool, accepts is_pref (Some text) = is_pref.
Proof.
  intros Hlo Hhi Hkw Hcount Hstrip Hseg Hsim. split.
  - apply valid_iff. repeat split; auto.
  - intros is_pref. rewrite accepts_floor.
    apply Nat.leb_le in Hlo. apply Nat.leb_gt in Hhi.
    rewrite Hlo, Hhi. reflexivity.
Qed.

Lemma valid_relaxed_floor_witness :
  _is_valid_plot_content Sample.plot_350 = true /\
  forall is_pref : bool, accepts is_pref (Some Sample.plot_350) = is_pref.
Proof.
  apply (valid_relaxed_floor Sample.plot_350);
    vm_compute; try reflexivity; lia.
Defined.

(** C2 as stated fails: the validator accepts a text of 350 characters
    that comes from a source that is not preferred. *)
Lemma validator_ignores_source :
  ~ (forall url text : string,
        is_preferred url = false ->
        300 <= String.length text ->
        String.length text < 400 ->
        has_movie_keywords text = true ->
        indicator_count text = 0 ->
        _is_valid_plot_content text = false).
Proof.
  intros H.
  specialize (H "https://example.com/review" Sample.plot_350).
  assert (Hacc : _is_valid_plot_content Sample.plot_350 = true)
    by (vm_compute; reflexivity).
  rewrite H in Hacc; [discriminate| | | | |];
    vm_compute; try reflexivity; lia.
Qed.

(** ** The fetch *)

Lemma fst_bind {A B} (m : Net A) (f : A -> Net B) :
  fst (bind m f) = fst (f (fst m)).
Proof. reflexivity. Qed.

Lemma snd_bind {A B} (m : Net A) (f : A -> Net B) :
  snd (bind m f) = snd m ++ snd (f (fst m)).
Proof. reflexivity. Qed.

(** The fetch in closed form: the result and the requests sent. *)
Lemma extract_plot_from_url_eq (w : World) (url : string) :
  _extract_plot_from_url w url =
  if negb (_is_valid_url url) then (None, [])
  else match session_get w url true with
       | inr r => (plot_of_response url r, [SessionGet url true])
       | inl e =>
           if is_SSLError e || is_ConnectionError e || is_Timeout e
           then (match session_get w url false with
                 | inr r => plot_of_response url r
                 | inl _ => None
                 end, [SessionGet url true; SessionGet url false])
           else (None, [SessionGet url true])
       end.
Proof.
  unfold _extract_plot_from_url, bind, call, ret.
  destruct (negb (_is_valid_url url)); [reflexivity|]. cbn [fst snd].
  destruct (session_get w url true) as [e|r]; [|reflexivity].
  destruct (is_SSLError e || is_ConnectionError e || is_Timeout e);
    [|reflexivity].
  cbn [fst snd].
  destruct (session_get w url false) as [e'|r]; [|reflexivity].
  destruct (is_Timeout e'); reflexivity.
Qed.

(** C6, as amended.  When the first, verified request of a fetch fails
    with a TLS failure, a connection failure or a timeout, the client sends
    exactly one more request, without certificate verification; when that
    retry fails too, with a timeout or otherwise, the fetch yields no
    content and no further request is made. *)
Theorem fetch_retries_once (w : World) (url : string) (e : RequestError) :
  _is_valid_url url = true ->
  session_get w url true = inl e ->
  is_SSLError e || is_ConnectionError e || is_Timeout e = true ->
  snd (_extract_plot_from_url w url)
    = [SessionGet url true; SessionGet url false] /\
  (forall e', session_get w url false = inl e' ->
              fst (_extract_plot_from_url w url) = None) /\
  (forall r, session_get w url false = inr r ->
             fst (_extract_plot_from_url w url) = plot_of_response url r).
Proof.
  intros Hurl Hfirst Hkind. rewrite extract_plot_from_url_eq.
  rewrite Hurl, Hfirst, Hkind. cbn [negb fst snd].
  repeat split; intros ? ->; reflexivity.
Qed.

Lemma fetch_retries_once_witness :
  snd (_extract_plot_from_url Sample.slow_then_answered "https://example.com/a")
    = [SessionGet "https://example.com/a" true;
       SessionGet "https://example.com/a" false].
Proof.
  apply (fetch_retries_once Sample.slow_then_answered "https://example.com/a"
                            ReadTimeout); reflexivity.
Defined.

(** C6 as stated fails: after a read timeout of the first request the
    client does retry, and here the retry brings the page. *)
Lemma timeout_is_retried :
  ~ (forall (w : World) (url : string),
        _is_valid_url url = true ->
        session_get w url true = inl ReadTimeout ->
        _extract_plot_from_url w url = (None, [SessionGet url true])).
Proof.
  intros H.
  specialize (H Sample.slow_then_answered "https://example.com/a").
  assert (Hrun : snd (_extract_plot_from_url Sample.slow_then_answered
                                             "https://example.com/a")
                 = [SessionGet "https://example.com/a" true;
                    SessionGet "https://example.com/a" false])
    by (vm_compute; reflexivity).
  rewrite H in Hrun; [discriminate| |]; reflexivity.
Qed.

(** ** The search-and-extract loop *)

Lemma fetched_app (l1 l2 : list Event) :
  fetched (l1 ++ l2) = fetched l1 ++ fetched l2.
Proof. unfold fetched. apply flat_map_app. Qed.

Lemma fetched_extract (w : World) (url : string) :
  fetched (snd (_extract_plot_from_url w url))
  = if _is_valid_url url then [url] else [].
Proof.
  rewrite extract_plot_from_url_eq.
  destruct (_is_valid_url url); [|reflexivity]. cbn [negb].
  destruct (session_get w url true) as [e|r]; [|reflexivity].
  destruct (is_SSLError e || is_ConnectionError e || is_Timeout e);
    reflexivity.
Qed.

Lemma fetched_search (self : PlotFinder) (w : World) (query : string) :
  fetched (snd (_search_with_serper self w query)) = [].
Proof.
  unfold _search_with_serper.
  destruct (negb (Py.truth (serper_api_key self))); reflexivity.
Qed.

(** The acceptance test of the loop is the floor of the specification. *)
Lemma accepts_is_match (w : World) (url : string) :
  accepts (is_preferred url) (extracted w url) = is_match w url.
Proof.
  unfold is_match, meets_floor. destruct (extracted w url) as [p|]; [|reflexivity].
  rewrite accepts_floor. f_equal. apply andb_comm.
Qed.

Lemma first_match_none (w : World) (urls : list string) :
  first_match w urls = None <-> existsb (is_match w) urls = false.
Proof.
  induction urls as [|u rest IH]; simpl; [tauto|].
  destruct (is_match w u) eqn:Hm; simpl; [|exact IH].
  split; [|discriminate]. unfold is_match in Hm.
  destruct (extracted w u); discriminate.
Qed.

Lemma first_match_app (w : World) (a b : list string) :
  first_match w (a ++ b)
  = match first_match w a with Some p => Some p | None => first_match w b end.
Proof.
  induction a as [|u rest IH]; simpl; [reflexivity|].
  destruct (is_match w u) eqn:Hm; [|exact IH].
  unfold is_match in Hm. destruct (extracted w u); [reflexivity|discriminate].
Qed.

Lemma scanned_app (w : World) (a b : list string) :
  scanned w (a ++ b)
  = match first_match w a with
    | Some _ => scanned w a
    | None => a ++ scanned w b
    end.
Proof.
  induction a as [|u rest IH]; simpl; [reflexivity|].
  destruct (is_match w u) eqn:Hm.
  - unfold is_match in Hm. destruct (extracted w u); [reflexivity|discriminate].
  - rewrite IH. destruct (first_match w rest); reflexivity.
Qed.

Lemma scanned_no_match (w : World) (urls : list string) :
  existsb (is_match w) urls = false -> scanned w urls = urls.
Proof.
  induction urls as [|u l IH]; [reflexivity|].
  cbn [existsb scanned]. intros H. apply orb_false_iff in H as [Hu Hl].
  rewrite Hu, (IH Hl). reflexivity.
Qed.

Lemma scan_results_spec (w : World) (results : list SearchResult) :
  fst (scan_results w results) = first_match w (unskipped results) /\
  fetched (snd (scan_results w results))
  = List.filter _is_valid_url (scanned w (unskipped results)).
Proof.
  induction results as [|r rest [IHv IHe]]; [split; reflexivity|].
  unfold unskipped in *. cbn [scan_results map List.filter].
  fold (url_of r). destruct (is_skipped (url_of r)); cbn [negb]; [split; assumption|].
  rewrite fst_bind, snd_bind, fetched_app, fetched_extract.
  fold (extracted w (url_of r)). rewrite accepts_is_match.
  cbn [first_match scanned List.filter].
  destruct (is_match w (url_of r)).
  - split; [reflexivity|]. cbn [ret snd fetched flat_map List.filter].
    rewrite app_nil_r. destruct (_is_valid_url (url_of r)); reflexivity.
  - split; [exact IHv|]. rewrite IHe.
    destruct (_is_valid_url (url_of r)); reflexivity.
Qed.

Lemma considered_eq (self : PlotFinder) (w : World) (query : string) :
  considered self w query
  = match fst (_search_with_serper self w query) with
    | Some (Some organic) => unskipped (firstn 10 organic)
    | _ => []
    end.
Proof.
  unfold considered, organic_of, unskipped.
  destruct (fst (_search_with_serper self w query)) as [[organic|]|];
    reflexivity.
Qed.

Lemma scan_queries_spec (self : PlotFinder) (w : World) (queries : list string) :
  fst (scan_queries self w queries)
  = first_match w (flat_map (considered self w) queries) /\
  fetched (snd (scan_queries self w queries))
  = List.filter _is_valid_url
      (scanned w (flat_map (considered self w) queries)).
Proof.
  induction queries as [|q rest [IHv IHe]]; [split; reflexivity|].
  cbn [scan_queries flat_map].
  rewrite first_match_app, scanned_app, considered_eq.
  rewrite fst_bind, snd_bind, fetched_app, fetched_search.
  destruct (fst (_search_with_serper self w q)) as [[organic|]|];
    try (split; [exact IHv|exact IHe]).
  destruct (scan_results_spec w (firstn 10 organic)) as [Hv He].
  rewrite fst_bind, snd_bind, fetched_app, He, <- Hv.
  destruct (fst (scan_results w (firstn 10 organic))) as [plot|] eqn:Hfound.
  - split; [reflexivity|]. cbn [ret snd fetched flat_map app].
    rewrite app_nil_r. reflexivity.
  - split; [exact IHv|]. rewrite IHe, List.filter_app.
    symmetry in Hv. apply first_match_none in Hv.
    rewrite (scanned_no_match _ _ Hv). reflexivity.
Qed.

Lemma considered_at_most_ten (self : PlotFinder) (w : World) (query : string) :
  length (considered self w query) <= 10.
Proof.
  unfold considered.
  etransitivity; [apply List.filter_length_le|].
  rewrite length_map. apply firstn_le_length.
Qed.

(** C3.  The search loop returns the extracted text of the first
    candidate URL, in the order of the queries and of their results, that
    reaches 400 characters, or 300 characters on a preferred host; no
    candidate after that one is fetched; and the candidates of a query are
    taken from its first ten results only. *)
Theorem search_first_match (self : PlotFinder) (w : World)
    (movie_title year : string) :
  fst (_search_movie_plot self w movie_title year)
  = first_match w (candidates self w movie_title year) /\
  fetched (snd (_search_movie_plot self w movie_title year))
  = List.filter _is_valid_url
      (scanned w (candidates self w movie_title year)) /\
  forall query, length (considered self w query) <= 10.
Proof.
  unfold _search_movie_plot, candidates.
  destruct (scan_queries_spec self w (queries_for movie_title year)) as [Hv He].
  repeat split; auto using considered_at_most_ten.
Qed.

Lemma prefix_lower (n h : string) :
  String.prefix n h = true ->
  String.prefix (Py.lower n) (Py.lower h) = true.
Proof.
  revert n. induction h as [|b h IH]; intros [|a n]; simpl; auto.
  destruct (ascii_dec a b) as [->|]; [|discriminate].
  intros H. destruct (ascii_dec (Py.lower_char b) (Py.lower_char b));
    [auto|congruence].
Qed.

Lemma contains_lower (n h : string) :
  Py.contains n h = true -> Py.contains (Py.lower n) (Py.lower h) = true.
Proof.
  induction h as [|b h IH]; cbn [Py.contains Py.lower]; intros H;
    apply orb_true_iff in H as [H|H]; apply orb_true_iff.
  - left. apply (prefix_lower n EmptyString H).
  - discriminate.
  - left. apply (prefix_lower n (String b h) H).
  - right. auto.
Qed.

Lemma imdb_skipped (url : string) :
  Py.contains "imdb.com" (Py.lower url) = true -> is_skipped url = true.
Proof.
  intros H. unfold is_skipped, Py.any_in, skip_sites. cbn [existsb].
  rewrite H. reflexivity.
Qed.

(** C10.  A result whose URL contains imdb.com (as written, or once
    lower-cased, which is what the code tests) is on the skip list, and the
    loop passes it over without a fetch, although imdb.com is on the
    preferred list too; so the relaxed floor, an acceptance below 400
    characters, only ever applies to a URL that contains wikipedia.org or
    britannica.com (once lower-cased). *)
Theorem relaxed_floor_hosts (w : World) :
  In "imdb.com" preferred_sites /\
  (forall (url : string) (rest : list SearchResult),
      Py.contains "imdb.com" url = true
      \/ Py.contains "imdb.com" (Py.lower url) = true ->
      is_skipped url = true /\
      scan_results w ({| link := Some url |} :: rest) = scan_results w rest) /\
  (forall url plot : string,
      is_skipped url = false ->
      accepts (is_preferred url) (Some plot) = true ->
      String.length plot < 400 ->
      Py.contains "wikipedia.org" (Py.lower url) = true
      \/ Py.contains "britannica.com" (Py.lower url) = true).
Proof.
  split; [simpl; tauto|]. split.
  - intros url rest H.
    assert (Hskip : is_skipped url = true).
    { apply imdb_skipped. destruct H as [H|H]; [|exact H].
      apply (contains_lower "imdb.com" url H). }
    split; [exact Hskip|]. cbn [scan_results link default from_option id].
    rewrite Hskip. reflexivity.
  - intros url plot Hskip Hacc Hlen. rewrite accepts_floor in Hacc.
    apply Nat.leb_gt in Hlen. rewrite Hlen in Hacc. cbn [orb] in Hacc.
    apply andb_true_iff in Hacc as [_ Hpref].
    unfold is_preferred, Py.any_in, preferred_sites in Hpref.
    cbn [existsb] in Hpref.
    apply orb_true_iff in Hpref as [Hw|Hpref]; [left; exact Hw|].
    apply orb_true_iff in Hpref as [Hb|Hpref]; [right; exact Hb|].
    rewrite orb_false_r in Hpref. apply imdb_skipped in Hpref. congruence.
Qed.

Lemma relaxed_floor_hosts_witness :
  is_skipped "https://www.imdb.com/title/tt0111161/" = true /\
  (Py.contains "wikipedia.org" (Py.lower Sample.encyclopedia_url) = true
   \/ Py.contains "britannica.com" (Py.lower Sample.encyclopedia_url) = true).
Proof.
  destruct (relaxed_floor_hosts Sample.short_article) as (_ & Himdb & Hfloor).
  split.
  - apply (Himdb "https://www.imdb.com/title/tt0111161/" []).
    left. reflexivity.
  - apply (Hfloor Sample.encyclopedia_url Sample.plot_350);
      vm_compute; try reflexivity; lia.
Defined.

(** ** The orchestrator *)

Lemma field_insert_eq (k v : string) (m : gmap string string) :
  field k (<[k := v]> m) = v.
Proof. unfold field. rewrite lookup_insert_eq. reflexivity. Qed.

Lemma field_insert_ne (k k' v : string) (m : gmap string string) :
  k <> k' -> field k' (<[k := v]> m) = field k' m.
Proof. intros H. unfold field. rewrite lookup_insert_ne by exact H. reflexivity. Qed.

Lemma extracted_valid (w : World) (url p : string) :
  extracted w url = Some p -> _is_valid_plot_content p = true.
Proof.
  unfold extracted. rewrite extract_plot_from_url_eq.
  assert (Hresp : forall r, plot_of_response url r = Some p ->
                            _is_valid_plot_content p = true).
  { intros r. unfold plot_of_response.
    destruct (negb (status_ok r)); [discriminate|].
    destruct (negb (Py.contains "text/html" _)); [discriminate|].
    destruct (_is_valid_plot_content (extract_text url (soup r))) eqn:Hv;
      [|discriminate].
    intros [= <-]. exact Hv. }
  destruct (negb (_is_valid_url url)); [discriminate|].
  destruct (session_get w url true) as [e|r]; [|apply Hresp].
  destruct (is_SSLError e || is_ConnectionError e || is_Timeout e);
    [|discriminate].
  cbn [fst]. destruct (session_get w url false) as [e'|r];
    [discriminate|apply Hresp].
Qed.

Lemma first_match_some (w : World) (urls : list string) (p : string) :
  first_match w urls = Some p ->
  exists u, In u urls /\ extracted w u = Some p /\ is_match w u = true.
Proof.
  induction urls as [|u rest IH]; cbn [first_match]; [discriminate|].
  destruct (is_match w u) eqn:Hm.
  - intros H. exists u. repeat split; auto. left; reflexivity.
  - intros H. destruct (IH H) as (u' & Hin & Hx & Hm').
    exists u'. repeat split; auto. right; exact Hin.
Qed.

Lemma first_match_all_rejected (w : World) (urls : list string) :
  (forall u, In u urls -> is_match w u = false) -> first_match w urls = None.
Proof.
  induction urls as [|u rest IH]; cbn [first_match]; [reflexivity|].
  intros H. rewrite (H u) by (left; reflexivity).
  apply IH. intros u' Hin. apply H. right; exact Hin.
Qed.

(** Whatever the search returns has passed the validator. *)
Lemma search_result_valid (self : PlotFinder) (w : World)
    (movie_title year p : string) :
  fst (_search_movie_plot self w movie_title year) = Some p ->
  _is_valid_plot_content p = true.
Proof.
  unfold _search_movie_plot.
  destruct (scan_queries_spec self w (queries_for movie_title year)) as [-> _].
  intros H. apply first_match_some in H as (u & _ & Hx & _).
  apply (extracted_valid w u p Hx).
Qed.

Lemma valid_length (p : string) :
  _is_valid_plot_content p = true -> 300 <= String.length p.
Proof. intros H. apply valid_iff in H. tauto. Qed.

Lemma plot_of_reply_length (reply : option string) (c : string) :
  plot_of_reply reply = Some c -> 300 <= String.length c.
Proof.
  unfold plot_of_reply. destruct reply as [text|]; [|discriminate].
  destruct (Py.contains "NO_PLOT_FOUND" (Py.strip text)); [discriminate|].
  destruct (300 <=? String.length (clean_reply (Py.strip text))) eqn:Hlen;
    [|discriminate].
  intros [= <-]. apply Nat.leb_le, Hlen.
Qed.

Lemma field_refreshed (k : string) (md : gmap string string) :
  k <> "web_plot" -> k <> "plot_source" ->
  field k (refreshed md) = field k md.
Proof.
  intros H1 H2. unfold refreshed, clear_web_plot.
  destruct (_ && _); [|reflexivity].
  rewrite !field_insert_ne by congruence. reflexivity.
Qed.

Lemma process_missing (self : PlotFinder) (w : World) (today path : string)
    (s : State) :
  disk s !! path = None ->
  process_movie_file self w today path s = (Failure Raised None, s).
Proof. intros H. unfold process_movie_file. rewrite H. reflexivity. Qed.

(** A record that is not eligible is answered at once: nothing is called,
    nothing is written. *)
Lemma process_ineligible (self : PlotFinder) (w : World) (today path : string)
    (s : State) (md : gmap string string) :
  disk s !! path = Some md ->
  eligible md = false ->
  process_movie_file self w today path s
  = (if negb (Py.truth (field "title" md)) then Failure NoMovieTitleFound None
     else if already_enhanced md then Success (field "title" md) existing
     else Success (field "title" md) adequate, s).
Proof.
  intros Hmd Hel. unfold process_movie_file. rewrite Hmd.
  unfold eligible in Hel. fold (already_enhanced md).
  destruct (Py.truth (field "title" md)); cbn [negb andb] in *; [|reflexivity].
  destruct (already_enhanced md); cbn [negb andb] in *; [reflexivity|].
  apply Nat.ltb_ge in Hel. apply Nat.leb_le in Hel. rewrite Hel. reflexivity.
Qed.

(** An eligible record goes through search, normalization and commit. *)
Lemma process_eligible (self : PlotFinder) (w : World) (today path : string)
    (s : State) (md : gmap string string) :
  disk s !! path = Some md ->
  eligible md = true ->
  let title := field "title" md in
  let search := _search_movie_plot self w title (field "year" md) in
  process_movie_file self w today path s
  = match fst search with
    | None => (Failure NoValidPlotFound (Some title), emit (snd search) s)
    | Some raw =>
        let cleaning :=
          _extract_plot_with_bedrock self w raw title (field "year" md)
                                     (field "plot" md) in
        let md' := committed today raw (fst cleaning) (refreshed md) in
        (Success title (updated (String.length (field "web_plot" md'))),
         write_file path md' (emit (snd cleaning) (emit (snd search) s)))
    end.
Proof.
  intros Hmd Hel. unfold process_movie_file. rewrite Hmd.
  unfold eligible in Hel. fold (already_enhanced md) in Hel.
  apply andb_true_iff in Hel as [Hel Hplot].
  apply andb_true_iff in Hel as [Htitle Hnew].
  apply negb_true_iff in Hnew. unfold already_enhanced in Hnew.
  rewrite Htitle, Hnew. cbn [negb].
  apply Nat.ltb_lt in Hplot.
  assert (Hp : (800 <=? String.length (field "plot" md)) = false)
    by (apply Nat.leb_gt; exact Hplot).
  rewrite Hp. fold (refreshed md).
  rewrite (field_refreshed "year") by congruence.
  cbv zeta.
  destruct (fst (_search_movie_plot self w (field "title" md) (field "year" md)))
    as [raw|] eqn:Hsearch; [|reflexivity].
  pose proof (search_result_valid _ _ _ _ _ Hsearch) as Hvalid.
  pose proof (valid_length _ Hvalid) as Hlen.
  assert (Htruth : Py.truth raw = true) by (apply truth_length; lia).
  assert (H200 : (String.length raw <? 200) = false) by (apply Nat.ltb_ge; lia).
  rewrite Htruth, H200. cbn [negb].
  destruct (fst (_extract_plot_with_bedrock self w raw (field "title" md)
                   (field "year" md) (field "plot" md))) as [c|] eqn:Hclean;
    [|reflexivity].
  assert (Hc : 300 <= String.length c).
  { unfold _extract_plot_with_bedrock, call in Hclean. cbn [fst] in Hclean.
    apply (plot_of_reply_length _ _ Hclean). }
  assert (Hct : Py.truth c = true) by (apply truth_length; lia).
  apply Nat.leb_le in Hc. rewrite Hct, Hc. reflexivity.
Qed.

Lemma committed_lookup (today raw : string) (clean : option string)
    (md : gmap string string) :
  committed today raw clean md !! "web_plot" = Some (default raw clean) /\
  committed today raw clean md !! "plot_source"
  = Some (match clean with
          | Some _ => "web_scraped_bedrock_cleaned"
          | None => "web_scraped"
          end) /\
  (forall k, k <> "last_updated" -> k <> "plot_source" -> k <> "raw_web_plot" ->
             k <> "web_plot" -> committed today raw clean md !! k = md !! k) /\
  (forall c, clean = Some c ->
             committed today raw clean md !! "raw_web_plot" = Some raw).
Proof.
  unfold committed. destruct clean as [c|]; repeat split; intros;
    simplify_map_eq; reflexivity.
Qed.

(** C5, as amended.  Once the search has accepted a candidate, the run
    always commits: when normalization yields a cleaned text (of at least
    300 characters, for a shorter one counts as none) the record stores it
    with provenance web_scraped_bedrock_cleaned and keeps the raw candidate;
    when normalization fails or yields none the record stores the raw
    candidate with provenance web_scraped, whatever its length, which is at
    least 300 characters since the search accepted it. *)
Theorem normalization_outcome (self : PlotFinder) (w : World)
    (today path : string) (s : State) (md : gmap string string) (raw : string) :
  disk s !! path = Some md ->
  eligible md = true ->
  fst (_search_movie_plot self w (field "title" md) (field "year" md))
    = Some raw ->
  let clean :=
    fst (_extract_plot_with_bedrock self w raw (field "title" md)
           (field "year" md) (field "plot" md)) in
  let out := process_movie_file self w today path s in
  exists md',
    disk (snd out) !! path = Some md' /\
    fst out = Success (field "title" md)
                      (updated (String.length (field "web_plot" md'))) /\
    300 <= String.length raw /\
    match clean with
    | Some clean_plot =>
        300 <= String.length clean_plot /\
        md' !! "web_plot" = Some clean_plot /\
        md' !! "raw_web_plot" = Some raw /\
        md' !! "plot_source" = Some "web_scraped_bedrock_cleaned"
    | None =>
        md' !! "web_plot" = Some raw /\
        md' !! "plot_source" = Some "web_scraped"
    end.
Proof.
  intros Hmd Hel Hsearch clean out. subst out.
  rewrite (process_eligible _ _ _ _ _ _ Hmd Hel). cbv zeta. rewrite Hsearch.
  fold clean.
  eexists. split; [cbn [snd write_file disk]; apply lookup_insert_eq|].
  split; [reflexivity|].
  split; [apply valid_length, (search_result_valid _ _ _ _ _ Hsearch)|].
  destruct (committed_lookup today raw clean (refreshed md))
    as (Hplot & Hsource & _ & Hraw).
  destruct clean as [c|] eqn:Hclean.
  - repeat split; eauto.
    unfold clean, _extract_plot_with_bedrock, call in Hclean.
    cbn [fst] in Hclean. apply (plot_of_reply_length _ _ Hclean).
  - split; assumption.
Qed.

Lemma normalization_outcome_witness :
  fst (process_movie_file Sample.finder Sample.short_article "2024-05-01"
                          Sample.movie_file Sample.fresh)
  = Success "Test Film" (updated 350).
Proof.
  destruct (normalization_outcome Sample.finder Sample.short_article
              "2024-05-01" Sample.movie_file Sample.fresh Sample.record
              Sample.plot_350)
    as (md' & Hdisk & Hout & Hlen & Hplot & Hsource);
    [by_computation ..|].
  rewrite Hout. unfold field. rewrite Hplot. reflexivity.
Defined.

(** C5 as stated fails: an accepted raw candidate of 350 characters is
    stored when normalization yields none; the run does not fail. *)
Lemma short_raw_plot_is_stored :
  ~ (forall (self : PlotFinder) (w : World) (today path : string) (s : State)
            (md : gmap string string) (raw : string),
        disk s !! path = Some md ->
        eligible md = true ->
        fst (_search_movie_plot self w (field "title" md) (field "year" md))
          = Some raw ->
        fst (_extract_plot_with_bedrock self w raw (field "title" md)
               (field "year" md) (field "plot" md)) = None ->
        String.length raw < 400 ->
        exists e t, fst (process_movie_file self w today path s) = Failure e t).
Proof.
  intros H.
  destruct (H Sample.finder Sample.short_article "2024-05-01"
              Sample.movie_file Sample.fresh Sample.record Sample.plot_350)
    as (e & t & Hfail); try by_computation.
  assert (Hrun : fst (process_movie_file Sample.finder Sample.short_article
                        "2024-05-01" Sample.movie_file Sample.fresh)
                 = Success "Test Film" (updated 350)) by by_computation.
  rewrite Hrun in Hfail. discriminate Hfail.
Qed.

(** What a run that reports [updated] has done: the record was eligible,
    the search found a candidate, and the committed record is on disk. *)
Lemma process_updated_inv (self : PlotFinder) (w : World) (today path : string)
    (s s1 : State) (title : string) (n : nat) :
  process_movie_file self w today path s = (Success title (updated n), s1) ->
  exists md raw,
    disk s !! path = Some md /\ eligible md = true /\
    title = field "title" md /\
    fst (_search_movie_plot self w title (field "year" md)) = Some raw /\
    disk s1 !! path
    = Some (committed today raw
              (fst (_extract_plot_with_bedrock self w raw title
                      (field "year" md) (field "plot" md)))
              (refreshed md)).
Proof.
  intros Hrun. destruct (disk s !! path) as [md|] eqn:Hmd.
  2:{ rewrite (process_missing _ _ _ _ _ Hmd) in Hrun. discriminate. }
  destruct (eligible md) eqn:Hel.
  2:{ rewrite (process_ineligible _ _ _ _ _ _ Hmd Hel) in Hrun.
      destruct (negb (Py.truth (field "title" md))), (already_enhanced md);
        discriminate. }
  rewrite (process_eligible _ _ _ _ _ _ Hmd Hel) in Hrun. cbv zeta in Hrun.
  destruct (fst (_search_movie_plot self w (field "title" md) (field "year" md)))
    as [raw|] eqn:Hsearch; [|discriminate].
  injection Hrun as Htitle _ Hs1. subst title s1.
  exists md, raw. repeat split; auto.
  cbn [write_file disk]. apply lookup_insert_eq.
Qed.

(** C4, as amended.  After a run that enriched a record, a second run on
    it calls nothing, writes nothing and reports the record as existing,
    provided the stored enriched plot has at least 400 characters and passes
    the validator; a stored raw candidate (provenance web_scraped) of at
    least 400 characters always does. *)
Theorem second_run_skips (self : PlotFinder) (w : World) (today path : string)
    (s s1 : State) (title : string) (n : nat) (md1 : gmap string string) :
  process_movie_file self w today path s = (Success title (updated n), s1) ->
  disk s1 !! path = Some md1 ->
  400 <= String.length (field "web_plot" md1) ->
  _is_valid_plot_content (field "web_plot" md1) = true
  \/ field "plot_source" md1 = "web_scraped" ->
  forall (self' : PlotFinder) (w' : World) (today' : string),
    process_movie_file self' w' today' path s1 = (Success title existing, s1).
Proof.
  intros Hrun Hmd1 Hlen Hok self' w' today'.
  destruct (process_updated_inv _ _ _ _ _ _ _ _ Hrun)
    as (md & raw & Hmd & Hel & Htitle & Hsearch & Hdisk).
  set (clean := fst (_extract_plot_with_bedrock self w raw title
                       (field "year" md) (field "plot" md))) in *.
  destruct (committed_lookup today raw clean (refreshed md))
    as (Hplot & Hsource & Hother & _).
  rewrite Hmd1 in Hdisk. injection Hdisk as ->.
  assert (Hvalid : _is_valid_plot_content
                     (field "web_plot" (committed today raw clean (refreshed md)))
                   = true).
  { destruct Hok as [Hok|Hok]; [exact Hok|].
    unfold field at 1 in Hok. rewrite Hsource in Hok.
    unfold field at 1. rewrite Hplot.
    destruct clean; [discriminate|].
    apply (search_result_valid _ _ _ _ _ Hsearch). }
  assert (Htitle1 : field "title" (committed today raw clean (refreshed md))
                    = title).
  { rewrite Htitle. unfold field at 1. rewrite Hother by congruence.
    apply (field_refreshed "title"); congruence. }
  assert (Hel1 : eligible (committed today raw clean (refreshed md)) = false).
  { unfold eligible, already_enhanced. apply Nat.leb_le in Hlen.
    rewrite Hlen, Hvalid. cbn [andb negb].
    rewrite andb_false_r. reflexivity. }
  rewrite (process_ineligible _ _ _ _ _ _ Hmd1 Hel1).
  unfold eligible in Hel. apply andb_true_iff in Hel as [Hel _].
  apply andb_true_iff in Hel as [Htruth _].
  rewrite Htitle1, Htitle, Htruth. cbn [negb].
  unfold already_enhanced. apply Nat.leb_le in Hlen. rewrite Hlen, Hvalid.
  reflexivity.
Qed.

Lemma second_run_skips_witness :
  let s1 := snd (process_movie_file Sample.finder Sample.long_article
                   "2024-05-01" Sample.movie_file Sample.fresh) in
  process_movie_file Sample.finder Sample.long_article "2024-05-02"
                     Sample.movie_file s1
  = (Success "Test Film" existing, s1).
Proof.
  intros s1.
  apply (second_run_skips Sample.finder Sample.long_article "2024-05-01"
           Sample.movie_file Sample.fresh s1 "Test Film" 450
           (committed "2024-05-01" Sample.plot_450 None Sample.record));
    [by_computation | by_computation | by_computation |].
  left. by_computation.
Defined.

(** C4 as stated fails: a record enriched with an accepted plot of 350
    characters is searched for again by the second run. *)
Lemma short_plot_is_searched_again :
  ~ (forall (self : PlotFinder) (w : World) (today path : string)
            (s s1 : State) (title : string) (n : nat),
        process_movie_file self w today path s
          = (Success title (updated n), s1) ->
        forall today' : string,
          let out := process_movie_file self w today' path s1 in
          List.filter is_network (events (snd out))
            = List.filter is_network (events s1)
          /\ disk (snd out) = disk s1).
Proof.
  intros H.
  destruct (H Sample.finder Sample.short_article "2024-05-01"
              Sample.movie_file Sample.fresh
              (snd (process_movie_file Sample.finder Sample.short_article
                      "2024-05-01" Sample.movie_file Sample.fresh))
              "Test Film" 350 ltac:(by_computation) "2024-05-02")
    as [Hnet _].
  apply (f_equal (@length Event)) in Hnet. vm_compute in Hnet.
  discriminate Hnet.
Qed.

Lemma written_app (l1 l2 : list Event) :
  written (l1 ++ l2) = written l1 ++ written l2.
Proof. unfold written. apply flat_map_app. Qed.

Lemma written_extract (w : World) (url : string) :
  written (snd (_extract_plot_from_url w url)) = [].
Proof.
  rewrite extract_plot_from_url_eq.
  destruct (negb (_is_valid_url url)); [reflexivity|].
  destruct (session_get w url true) as [e|r]; [|reflexivity].
  destruct (is_SSLError e || is_ConnectionError e || is_Timeout e);
    reflexivity.
Qed.

Lemma written_scan_results (w : World) (results : list SearchResult) :
  written (snd (scan_results w results)) = [].
Proof.
  induction results as [|r rest IH]; [reflexivity|].
  cbn [scan_results]. destruct (negb (is_skipped _)); [|exact IH].
  rewrite snd_bind, written_app, written_extract.
  destruct (accepts _ _); [reflexivity|exact IH].
Qed.

Lemma written_scan_queries (self : PlotFinder) (w : World)
    (queries : list string) :
  written (snd (scan_queries self w queries)) = [].
Proof.
  induction queries as [|q rest IH]; [reflexivity|].
  cbn [scan_queries]. rewrite snd_bind, written_app.
  assert (Hs : written (snd (_search_with_serper self w q)) = []).
  { unfold _search_with_serper.
    destruct (negb (Py.truth (serper_api_key self))); reflexivity. }
  rewrite Hs. cbn [app].
  destruct (fst (_search_with_serper self w q)) as [[organic|]|];
    try exact IH.
  rewrite snd_bind, written_app, written_scan_results. cbn [app].
  destruct (fst (scan_results w (firstn 10 organic))); [reflexivity|exact IH].
Qed.

(** C7.  When no candidate URL of a record is accepted (the page could not
    be fetched, its text was rejected by the validator, or the validated
    text is below the floor of its host), the run writes nothing and the
    files are as they were; and for a record that reaches the search stage
    the run reports the failure that no valid plot was found. *)
Theorem rejected_candidates_leave_file (self : PlotFinder) (w : World)
    (today path : string) (s : State) :
  (forall md, disk s !! path = Some md ->
     forall u, In u (candidates self w (field "title" md) (field "year" md)) ->
               is_match w u = false) ->
  let out := process_movie_file self w today path s in
  disk (snd out) = disk s /\
  written (events (snd out)) = written (events s) /\
  (forall md, disk s !! path = Some md -> eligible md = true ->
     fst out = Failure NoValidPlotFound (Some (field "title" md))).
Proof.
  intros Hrej out. subst out.
  destruct (disk s !! path) as [md|] eqn:Hmd.
  2:{ rewrite (process_missing _ _ _ _ _ Hmd).
      repeat split; auto. intros md [=]. }
  destruct (eligible md) eqn:Hel.
  { rewrite (process_eligible _ _ _ _ _ _ Hmd Hel). cbv zeta.
    assert (Hnone : fst (_search_movie_plot self w (field "title" md)
                           (field "year" md)) = None).
    { unfold _search_movie_plot.
      destruct (scan_queries_spec self w
                  (queries_for (field "title" md) (field "year" md)))
        as [-> _].
      apply first_match_all_rejected. apply (Hrej md eq_refl). }
    rewrite Hnone. cbn [fst snd emit disk events].
    repeat split.
    - rewrite written_app. unfold _search_movie_plot.
      rewrite written_scan_queries. apply app_nil_r.
    - intros md' [= <-] _. reflexivity. }
  rewrite (process_ineligible _ _ _ _ _ _ Hmd Hel). cbn [snd].
  repeat split. intros md' [= <-] Hel'. congruence.
Qed.

Lemma rejected_candidates_leave_file_witness :
  let out := process_movie_file Sample.finder Sample.cookie_walls "2024-05-01"
                                Sample.movie_file Sample.fresh in
  disk (snd out) = disk Sample.fresh /\
  fst out = Failure NoValidPlotFound (Some "Test Film").
Proof.
  destruct (rejected_candidates_leave_file Sample.finder Sample.cookie_walls
              "2024-05-01" Sample.movie_file Sample.fresh)
    as (Hdisk & _ & Hfail).
  - intros md Hmd u Hin. unfold Sample.fresh in Hmd. cbn [disk] in Hmd.
    rewrite lookup_insert_eq in Hmd. injection Hmd as <-.
    vm_compute in Hin. destruct Hin as [<-|[<-|[<-|[]]]]; by_computation.
  - split; [exact Hdisk|].
    apply (Hfail Sample.record); by_computation.
Defined.

(** ** The maintenance pass *)

Lemma blanked_lookup (today : string) (md : gmap string string) :
  blanked today md !! "web_plot" = Some "" /\
  blanked today md !! "plot_source" = Some "" /\
  (forall k, k <> "last_updated" -> k <> "plot_source" -> k <> "web_plot" ->
             blanked today md !! k = md !! k).
Proof.
  unfold blanked, clear_web_plot. repeat split; intros; simplify_map_eq;
    reflexivity.
Qed.

Lemma field_blanked_web_plot (today : string) (md : gmap string string) :
  field "web_plot" (blanked today md) = "".
Proof.
  unfold field. destruct (blanked_lookup today md) as [-> _]. reflexivity.
Qed.







(** ** The provenance invariant *)

Lemma step_ok_refl (s : State) : step_ok s s.
Proof.
  split; [|auto]. exists []. rewrite app_nil_r. split; [reflexivity|constructor].
Qed.

Lemma step_ok_trans (s1 s2 s3 : State) :
  step_ok s1 s2 -> step_ok s2 s3 -> step_ok s1 s3.
Proof.
  intros [(e1 & H1 & W1) D1] [(e2 & H2 & W2) D2]. split; [|auto].
  exists (e1 ++ e2). rewrite H2, H1, <- app_assoc. split; [reflexivity|].
  rewrite written_app. apply Forall_app. split; assumption.
Qed.

Lemma step_ok_emit (evs : list Event) (s : State) :
  written evs = [] -> step_ok s (emit evs s).
Proof.
  intros H. split; [|auto]. exists evs. rewrite H. split; [reflexivity|constructor].
Qed.

Lemma step_ok_write (path : string) (md : gmap string string) (s : State) :
  provenance_ok md -> step_ok s (write_file path md s).
Proof.
  intros Hmd. split.
  - exists [FileWrite path md]. split; [reflexivity|].
    cbn [written flat_map app]. constructor; [exact Hmd|constructor].
  - intros Hs p md' Hp. cbn [write_file disk] in Hp.
    destruct (decide (path = p)) as [->|Hne].
    + rewrite lookup_insert_eq in Hp. injection Hp as <-. exact Hmd.
    + rewrite lookup_insert_ne in Hp by exact Hne. apply (Hs p md' Hp).
Qed.

Lemma committed_ok (today raw : string) (clean : option string)
    (md : gmap string string) :
  provenance_ok (committed today raw clean md).
Proof.
  intros _. unfold field.
  destruct (committed_lookup today raw clean md) as (_ & -> & _).
  destruct clean; [right|left]; reflexivity.
Qed.

Lemma blanked_ok (today : string) (md : gmap string string) :
  provenance_ok (blanked today md).
Proof.
  intros H. rewrite field_blanked_web_plot in H. discriminate H.
Qed.

Lemma process_step_ok (self : PlotFinder) (w : World) (today path : string)
    (s : State) :
  step_ok s (snd (process_movie_file self w today path s)).
Proof.
  destruct (disk s !! path) as [md|] eqn:Hmd.
  2:{ rewrite (process_missing _ _ _ _ _ Hmd). apply step_ok_refl. }
  destruct (eligible md) eqn:Hel.
  2:{ rewrite (process_ineligible _ _ _ _ _ _ Hmd Hel). apply step_ok_refl. }
  rewrite (process_eligible _ _ _ _ _ _ Hmd Hel). cbv zeta.
  assert (Hsearch : forall s0, step_ok s0
            (emit (snd (_search_movie_plot self w (field "title" md)
                          (field "year" md))) s0)).
  { intros s0. apply step_ok_emit. apply written_scan_queries. }
  destruct (fst (_search_movie_plot self w (field "title" md) (field "year" md)))
    as [raw|]; cbn [snd]; [|apply Hsearch].
  eapply step_ok_trans; [apply Hsearch|].
  eapply step_ok_trans; [|apply step_ok_write, committed_ok].
  apply step_ok_emit. reflexivity.
Qed.

Lemma clean_file_step_ok (today f : string) (acc : nat * State) :
  step_ok (snd acc) (snd (clean_file today acc f)).
Proof.
  unfold clean_file.
  destruct (disk (snd acc) !! f) as [md|]; [|apply step_ok_refl].
  destruct (_ && _); [|apply step_ok_refl].
  cbn [snd]. apply step_ok_write, blanked_ok.
Qed.

Lemma clean_step_ok (today : string) (movies_dir : option (list string))
    (s : State) :
  step_ok s (snd (clean_invalid_plots today movies_dir s)).
Proof.
  unfold clean_invalid_plots.
  destruct movies_dir as [files|]; [|apply step_ok_refl]. cbn [snd].
  change s with (snd (0, s)) at 1. generalize (0, s) as acc.
  induction files as [|f rest IH]; intros acc; [apply step_ok_refl|].
  cbn [fold_left]. eapply step_ok_trans; [apply clean_file_step_ok|apply IH].
Qed.

Lemma scraper_written_results (w : World) (results : list SearchResult) :
  written (snd (WebPlotScraper.scan_results w results)) = [].
Proof.
  induction results as [|r rest IH]; [reflexivity|].
  cbn [WebPlotScraper.scan_results].
  destruct (negb (Py.any_in WebPlotScraper.storefronts _)); [|exact IH].
  rewrite snd_bind, written_app.
  unfold WebPlotScraper.extract_plot_from_url at 1 2.
  rewrite snd_bind, fst_bind. unfold call. cbn [fst snd].
  destruct (requests_get w _) as [e|resp]; cbn [ret fst snd written flat_map app].
  - exact IH.
  - destruct (300 <=? _); [|exact IH].
    destruct (_ && _); [reflexivity|exact IH].
Qed.

Lemma scraper_written_search (w : World) (queries : list string) :
  written (snd (WebPlotScraper.scan_queries w queries)) = [].
Proof.
  induction queries as [|q rest IH]; [reflexivity|].
  cbn [WebPlotScraper.scan_queries]. rewrite snd_bind, written_app.
  unfold WebPlotScraper.search_with_serper, call. cbn [fst snd written flat_map app].
  destruct (https_search w q) as [[organic|]|]; try exact IH.
  rewrite snd_bind, written_app, scraper_written_results. cbn [app].
  destruct (fst (WebPlotScraper.scan_results w (firstn 10 organic)));
    [reflexivity|exact IH].
Qed.

Lemma scraper_step_ok (w : World) (today path : string) (s : State) :
  step_ok s (WebPlotScraper.update_movie_plot w today path s).
Proof.
  unfold WebPlotScraper.update_movie_plot.
  destruct (disk s !! path) as [md|]; [|apply step_ok_refl].
  destruct (500 <=? _); [apply step_ok_refl|].
  assert (Hsearch : forall s0, step_ok s0
            (emit (snd (WebPlotScraper.search_movie_plot w (field "title" md)
                          (field "year" md))) s0)).
  { intros s0. apply step_ok_emit. apply scraper_written_search. }
  destruct (fst (WebPlotScraper.search_movie_plot w (field "title" md)
                   (field "year" md))) as [web_plot|]; [|apply Hsearch].
  destruct (_ && _); [|apply Hsearch].
  eapply step_ok_trans; [apply Hsearch|].
  eapply step_ok_trans; [|apply step_ok_write].
  - apply step_ok_emit. reflexivity.
  - set (clean := fst (WebPlotScraper.extract_plot_with_bedrock _ _ _ _ _)).
    destruct clean as [c|]; [destruct (Py.truth c)|].
    + apply (committed_ok today web_plot (Some c) md).
    + apply (committed_ok today web_plot None md).
    + apply (committed_ok today web_plot None md).
Qed.

(** C9.  Each of the three operations that write movie records (the
    enrichment run, the maintenance pass, and the second script's update)
    extends the event log by records that all satisfy the invariant (a
    non-empty enriched plot comes with provenance web_scraped or
    web_scraped_bedrock_cleaned), and takes a disk on which every record
    satisfies it to such a disk. *)
Theorem writes_keep_provenance (self : PlotFinder) (w : World)
    (today path : string) (movies_dir : option (list string)) (s : State) :
  step_ok s (snd (process_movie_file self w today path s)) /\
  step_ok s (snd (clean_invalid_plots today movies_dir s)) /\
  step_ok s (WebPlotScraper.update_movie_plot w today path s).
Proof.
  split; [apply process_step_ok|].
  split; [apply clean_step_ok|apply scraper_step_ok].
Qed.

(** ** The scenarios of the specification, run on the model *)

(** One result, an encyclopedia page whose Plot section holds 450 valid
    characters, no normalizer: the text is stored as it is, as raw. *)
Example scenario_long_article :
  let out := process_movie_file Sample.finder Sample.long_article "2024-05-01"
                                Sample.movie_file Sample.fresh in
  fst out = Success "Test Film" (updated 450) /\
  disk (snd out) !! Sample.movie_file
  = Some (committed "2024-05-01" Sample.plot_450 None Sample.record) /\
  List.filter is_network (events (snd out))
  = [ SerperPost "Test Film 2020 plot summary wikipedia";
      SessionGet Sample.encyclopedia_url true;
      InvokeModel "anthropic.claude-3-sonnet-20240229-v1:0" Sample.plot_450 ].
Proof. cbv zeta. repeat split; by_computation. Qed.

(** Every page is a cookie notice: three searches, three fetches, no
    write. *)
Example scenario_cookie_walls :
  process_movie_file Sample.finder Sample.cookie_walls "2024-05-01"
                     Sample.movie_file Sample.fresh
  = (Failure NoValidPlotFound (Some "Test Film"),
     emit [ SerperPost "Test Film 2020 plot summary wikipedia";
            SessionGet Sample.encyclopedia_url true;
            SerperPost "Test Film 2020 movie synopsis";
            SessionGet Sample.encyclopedia_url true;
            SerperPost "Test Film 2020 story plot detailed";
            SessionGet Sample.encyclopedia_url true ] Sample.fresh).
Proof. by_computation. Qed.

(** 350 valid characters: extracted on either host, accepted by the loop
    on the preferred host only. *)
Example scenario_short_text :
  extracted Sample.short_review Sample.review_url = Some Sample.plot_350 /\
  fst (_search_movie_plot Sample.finder Sample.short_review "Test Film" "2020")
  = None /\
  fst (_search_movie_plot Sample.finder Sample.short_article "Test Film" "2020")
  = Some Sample.plot_350.
Proof. repeat split; by_computation. Qed.

(** The cleaning of a reply of the generation service. *)
Example scenario_clean_reply :
  clean_reply "A  story\n of <b>two</b> friends \\ and more."
  = "A story of b two b friends and more.".
Proof. by_computation. Qed.

(** * Further properties *)

(** ** More on the validator *)

(** X1.  One noise indicator is enough: a text whose lower-cased form
    contains any phrase of the five indicator lists is rejected, whatever
    its length and whatever else it says. *)
Theorem any_indicator_rejects (text indicator : string) :
  In indicator all_indicators ->
  Py.contains indicator (Py.lower text) = true ->
  _is_valid_plot_content text = false.
Proof.
  intros Hin Hc. destruct (_is_valid_plot_content text) eqn:Hv; [|reflexivity].
  apply valid_iff in Hv. destruct Hv as (_ & _ & Hcount & _).
  rewrite (count_in_zero _ _ Hcount indicator Hin) in Hc. discriminate Hc.
Qed.

Lemma any_indicator_rejects_witness :
  _is_valid_plot_content (Sample.plot_450 +:+ " See the Header.") = false.
Proof.
  apply (any_indicator_rejects _ "header").
  - apply list_elem_of_In. by_computation.
  - by_computation.
Defined.

(** X2.  The validator accepts no text of fewer than 300 characters: its
    test at 100 characters never decides alone. *)
Theorem short_text_rejected (text : string) :
  String.length text < 300 -> _is_valid_plot_content text = false.
Proof.
  intros Hlen. destruct (_is_valid_plot_content text) eqn:Hv; [|reflexivity].
  apply valid_iff in Hv. lia.
Qed.

Lemma short_text_rejected_witness :
  _is_valid_plot_content (Sample.prose 200) = false.
Proof.
  apply short_text_rejected. apply Nat.ltb_lt. vm_compute. reflexivity.
Defined.

(** ** More on the fetch *)

(** X3.  A fetch sends one request or two, never more: the first with
    certificate verification, the second, if any, without and to the same
    URL; a URL that fails the URL check is not requested at all. *)
Theorem fetch_requests (w : World) (url : string) :
  let evs := snd (_extract_plot_from_url w url) in
  if _is_valid_url url
  then evs = [SessionGet url true]
       \/ evs = [SessionGet url true; SessionGet url false]
  else evs = [] /\ fst (_extract_plot_from_url w url) = None.
Proof.
  cbv zeta. rewrite extract_plot_from_url_eq.
  destruct (_is_valid_url url); cbn [negb]; [|split; reflexivity].
  destruct (session_get w url true) as [e|r]; [|left; reflexivity].
  destruct (is_SSLError e || is_ConnectionError e || is_Timeout e);
    [right|left]; reflexivity.
Qed.

(** X4.  A URL that does not begin with http:// or https://, or that
    names one of the problematic domains in any letter case, is never
    requested: the fetch yields nothing and sends nothing. *)
Theorem denied_url_not_requested (w : World) (url : string) :
  (Py.startswith url "http://" || Py.startswith url "https://" = false
   \/ exists domain, In domain problematic_domains
                     /\ Py.contains domain (Py.lower url) = true) ->
  _extract_plot_from_url w url = (None, []).
Proof.
  intros H. rewrite extract_plot_from_url_eq.
  assert (Hurl : _is_valid_url url = false).
  { unfold _is_valid_url. destruct H as [H|(d & Hin & Hc)].
    - rewrite H. cbn [negb]. rewrite orb_true_r. reflexivity.
    - destruct (negb (Py.truth url) || _); [reflexivity|].
      apply negb_false_iff. unfold Py.any_in. apply existsb_exists.
      exists d. split; assumption. }
  rewrite Hurl. reflexivity.
Qed.

Lemma denied_url_not_requested_witness :
  _extract_plot_from_url Sample.long_article "https://www.FaceBook.com/testfilm"
  = (None, []).
Proof.
  apply denied_url_not_requested. right. exists "facebook.com". split.
  - apply list_elem_of_In. by_computation.
  - by_computation.
Defined.

(** X5.  Whatever a fetch returns is the text extracted from a response
    that passed the status check and declared an HTML content type, and it
    has passed the validator (so it has at least 300 characters). *)
Theorem fetch_returns_validated_html (w : World) (url p : string) :
  fst (_extract_plot_from_url w url) = Some p ->
  _is_valid_plot_content p = true /\
  300 <= String.length p /\
  exists (verify : bool) (r : Response),
    session_get w url verify = inr r /\
    status_ok r = true /\
    Py.contains "text/html" (Py.lower (default "" (content_type r))) = true /\
    p = extract_text url (soup r).
Proof.
  intros H.
  assert (Hv : _is_valid_plot_content p = true)
    by (apply (extracted_valid w url p H)).
  split; [exact Hv|]. split; [apply valid_length, Hv|].
  rewrite extract_plot_from_url_eq in H.
  assert (Hresp : forall r, plot_of_response url r = Some p ->
            status_ok r = true /\
            Py.contains "text/html" (Py.lower (default "" (content_type r)))
              = true /\
            p = extract_text url (soup r)).
  { intros r Hr. unfold plot_of_response in Hr.
    destruct (status_ok r); cbn [negb] in Hr; [|discriminate Hr].
    destruct (Py.contains "text/html" _); cbn [negb] in Hr; [|discriminate Hr].
    destruct (_is_valid_plot_content (extract_text url (soup r)));
      [|discriminate Hr].
    injection Hr as Hr. repeat split. symmetry. exact Hr. }
  destruct (negb (_is_valid_url url)); [discriminate H|].
  destruct (session_get w url true) as [e|r] eqn:H1.
  - destruct (is_SSLError e || is_ConnectionError e || is_Timeout e);
      [|discriminate H].
    cbn [fst] in H. destruct (session_get w url false) as [e'|r] eqn:H2;
      [discriminate H|].
    exists false, r. split; [exact H2|apply Hresp, H].
  - exists true, r. split; [exact H1|apply Hresp, H].
Qed.

Lemma fetch_returns_validated_html_witness :
  _is_valid_plot_content Sample.plot_450 = true /\
  300 <= String.length Sample.plot_450.
Proof.
  destruct (fetch_returns_validated_html Sample.long_article
              Sample.encyclopedia_url Sample.plot_450) as (Hv & Hlen & _).
  - by_computation.
  - split; assumption.
Defined.

(** ** More on the search *)

Lemma posted_app (l1 l2 : list Event) : posted (l1 ++ l2) = posted l1 ++ posted l2.
Proof. unfold posted. apply flat_map_app. Qed.

Lemma extract_events_ok (w : World) (url : string) :
  is_skipped url = false ->
  let evs := snd (_extract_plot_from_url w url) in
  Forall search_event_ok evs /\ posted evs = [] /\ length evs <= 2.
Proof.
  intros Hskip. cbv zeta. rewrite extract_plot_from_url_eq.
  destruct (_is_valid_url url) eqn:Hurl; cbn [negb].
  2:{ split; [constructor|]. split; [reflexivity|cbn; lia]. }
  assert (Hget : forall v, search_event_ok (SessionGet url v))
    by (intros v; split; assumption).
  destruct (session_get w url true) as [e|r];
    [destruct (is_SSLError e || is_ConnectionError e || is_Timeout e)|];
    cbn [fst snd];
    (split; [repeat (constructor; [apply Hget|]); constructor|];
     split; [reflexivity|cbn; lia]).
Qed.

Lemma scan_results_events (w : World) (results : list SearchResult) :
  let evs := snd (scan_results w results) in
  Forall search_event_ok evs /\ posted evs = [] /\
  length evs <= 2 * length results.
Proof.
  cbv zeta. induction results as [|r rest (IHa & IHp & IHl)].
  { repeat split; [constructor|cbn; lia]. }
  cbn [scan_results length].
  destruct (is_skipped (default "" (link r))) eqn:Hskip; cbn [negb].
  { repeat split; auto. lia. }
  rewrite snd_bind.
  destruct (extract_events_ok w (default "" (link r)) Hskip) as (Ha & Hp & Hl).
  rewrite posted_app, Hp, length_app.
  destruct (accepts _ _); cbn [ret snd].
  - rewrite app_nil_r. repeat split; auto. cbn [length]. lia.
  - repeat split; [apply Forall_app; split; assumption|exact IHp|lia].
Qed.

Lemma scan_queries_no_key (self : PlotFinder) (w : World) (queries : list string) :
  Py.truth (serper_api_key self) = false ->
  scan_queries self w queries = (None, []).
Proof.
  intros Hkey. induction queries as [|q rest IH]; [reflexivity|].
  cbn [scan_queries]. unfold _search_with_serper. rewrite Hkey. cbn [negb].
  unfold bind, ret. cbn [fst snd app]. rewrite IH. reflexivity.
Qed.

Lemma scanned_length (w : World) (l : list string) :
  length (scanned w l) <= length l.
Proof.
  induction l as [|u l IH]; [reflexivity|]. cbn [scanned length].
  destruct (is_match w u); cbn [length]; lia.
Qed.

Lemma scan_results_fetched_le (w : World) (results : list SearchResult) :
  length (fetched (snd (scan_results w results))) <= length results.
Proof.
  destruct (scan_results_spec w results) as [_ ->].
  etransitivity; [apply List.filter_length_le|].
  etransitivity; [apply scanned_length|].
  unfold unskipped. etransitivity; [apply List.filter_length_le|].
  rewrite length_map. reflexivity.
Qed.

Lemma scan_queries_events (self : PlotFinder) (w : World) (queries : list string) :
  let evs := snd (scan_queries self w queries) in
  Forall search_event_ok evs /\
  (exists rest, queries = posted evs ++ rest) /\
  length (fetched evs) <= 10 * length queries /\
  length evs <= 21 * length queries.
Proof.
  cbv zeta. destruct (Py.truth (serper_api_key self)) eqn:Hkey.
  2:{ rewrite (scan_queries_no_key _ _ _ Hkey). cbn [snd].
      split; [constructor|]. split; [exists queries; reflexivity|].
      cbn [fetched posted flat_map length]. lia. }
  induction queries as [|q rest (IHa & (tl & IHp) & IHf & IHl)].
  { split; [constructor|]. split; [exists []; reflexivity|]. cbn. lia. }
  cbn [scan_queries length].
  assert (Hs : _search_with_serper self w q = (serper w q, [SerperPost q])).
  { unfold _search_with_serper. rewrite Hkey. reflexivity. }
  rewrite Hs, snd_bind. cbn [fst snd].
  rewrite fetched_app, posted_app. cbn [fetched posted flat_map app length].
  assert (Hrest : Forall search_event_ok
                    (SerperPost q :: snd (scan_queries self w rest)) /\
                  (exists rest0, q :: rest
                     = q :: posted (snd (scan_queries self w rest)) ++ rest0) /\
                  length (fetched (snd (scan_queries self w rest)))
                    <= 10 * S (length rest) /\
                  S (length (snd (scan_queries self w rest)))
                    <= 21 * S (length rest)).
  { split; [constructor; [exact I|exact IHa]|].
    split; [exists tl; f_equal; exact IHp|]. lia. }
  destruct (serper w q) as [[organic|]|]; [|exact Hrest|exact Hrest].
  rewrite snd_bind, fetched_app, posted_app.
  destruct (scan_results_events w (firstn 10 organic)) as (Ha & Hp & Hl).
  pose proof (scan_results_fetched_le w (firstn 10 organic)) as Hf10.
  assert (H10 : length (firstn 10 organic) <= 10) by apply firstn_le_length.
  rewrite Hp, !length_app.
  destruct (fst (scan_results w (firstn 10 organic))); cbn [ret snd].
  - rewrite !app_nil_r. cbn [fetched posted flat_map length app].
    split; [constructor; [exact I|exact Ha]|].
    split; [exists rest; reflexivity|]. lia.
  - split; [constructor; [exact I|apply Forall_app; split; assumption]|].
    split; [exists tl; cbn [app]; f_equal; exact IHp|]. lia.
Qed.

(** X6.  The search for one movie stays within bounds: the queries it
    posts are the first ones of its three phrasings, in order; it fetches
    at most 30 URLs (at most 63 requests in all, retries and searches
    included); and every URL it requests passes the URL check and is not on
    the skip list. *)
Theorem search_effort_bounded (self : PlotFinder) (w : World)
    (movie_title year : string) :
  let evs := snd (_search_movie_plot self w movie_title year) in
  (exists rest, queries_for movie_title year = posted evs ++ rest) /\
  length (fetched evs) <= 30 /\
  length evs <= 63 /\
  Forall search_event_ok evs.
Proof.
  cbv zeta. unfold _search_movie_plot.
  destruct (scan_queries_events self w (queries_for movie_title year))
    as (Ha & Hp & Hf & Hl).
  cbn [queries_for length] in Hf, Hl. repeat split; auto.
Qed.

(** ** The text cleaning *)

Lemma all_chars_impl (P Q : ascii -> bool) (s : string) :
  (forall c, P c = true -> Q c = true) ->
  all_chars P s = true -> all_chars Q s = true.
Proof.
  intros HPQ. induction s as [|c s IH]; [reflexivity|]. cbn [all_chars].
  intros H. apply andb_true_iff in H as [Hc Hs].
  rewrite (HPQ c Hc), (IH Hs). reflexivity.
Qed.

Lemma all_chars_sub_runs (bad : ascii -> bool) (in_run : bool) (s : string) :
  all_chars (fun c => Ascii.eqb c " " || negb (bad c)) (sub_runs bad in_run s)
  = true.
Proof.
  revert in_run. induction s as [|c s IH]; intros in_run; [reflexivity|].
  cbn [sub_runs]. destruct (bad c) eqn:Hc.
  - destruct in_run; [apply IH|]. cbn [all_chars]. rewrite IH. reflexivity.
  - cbn [all_chars]. rewrite Hc, IH. cbn [negb]. rewrite orb_true_r.
    reflexivity.
Qed.

Lemma all_chars_lstrip (P : ascii -> bool) (s : string) :
  all_chars P s = true -> all_chars P (Py.lstrip s) = true.
Proof.
  induction s as [|c s IH]; [reflexivity|]. cbn [Py.lstrip].
  destruct (Py.isspace c); [|auto]. cbn [all_chars]. intros H.
  apply andb_true_iff in H as [_ H]. auto.
Qed.

Lemma all_chars_rstrip (P : ascii -> bool) (s : string) :
  all_chars P s = true -> all_chars P (Py.rstrip s) = true.
Proof.
  induction s as [|c s IH]; [reflexivity|]. cbn [Py.rstrip all_chars].
  intros H. apply andb_true_iff in H as [Hc Hs]. specialize (IH Hs).
  destruct (Py.rstrip s) as [|d r].
  - destruct (Py.isspace c); [reflexivity|]. cbn [all_chars].
    rewrite Hc. reflexivity.
  - cbn [all_chars] in *. rewrite Hc, IH. reflexivity.
Qed.

Lemma spaced_sub_runs (in_run : bool) (s : string) :
  spaced_from in_run (sub_runs Py.isspace in_run s) = true.
Proof.
  revert in_run. induction s as [|c s IH]; intros in_run; [reflexivity|].
  cbn [sub_runs]. destruct (Py.isspace c) eqn:Hc.
  - destruct in_run; [apply IH|]. cbn [spaced_from].
    change (Py.isspace " ") with true. cbv iota. rewrite IH. reflexivity.
  - cbn [spaced_from]. rewrite Hc. apply IH.
Qed.

Lemma spaced_lstrip (b : bool) (s : string) :
  spaced_from b s = true -> spaced_from true (Py.lstrip s) = true.
Proof.
  revert b. induction s as [|c s IH]; intros b; [reflexivity|].
  cbn [Py.lstrip spaced_from]. destruct (Py.isspace c) eqn:Hc.
  - intros H. apply andb_true_iff in H as [_ H]. apply (IH true H).
  - intros H. cbn [spaced_from]. rewrite Hc. exact H.
Qed.

Lemma tidy_rstrip (b : bool) (s : string) :
  spaced_from b s = true ->
  Py.rstrip s <> EmptyString ->
  tidy_from b (Py.rstrip s) = true.
Proof.
  revert b. induction s as [|c s IH]; intros b H Hne; [contradiction|].
  cbn [Py.rstrip spaced_from] in *.
  destruct (Py.rstrip s) as [|d r] eqn:Hr.
  - destruct (Py.isspace c) eqn:Hc; [contradiction|].
    cbn [tidy_from]. rewrite Hc. reflexivity.
  - cbn [tidy_from]. fold (tidy_from b (String c (String d r))).
    cbn [tidy_from]. destruct (Py.isspace c) eqn:Hc.
    + apply andb_true_iff in H as [Hb H]. rewrite Hb.
      apply (IH true H). discriminate.
    + apply (IH false H). discriminate.
Qed.

Lemma lstrip_head (s : string) :
  match Py.lstrip s with
  | EmptyString => True
  | String c _ => Py.isspace c = false
  end.
Proof.
  induction s as [|c s IH]; [exact I|]. cbn [Py.lstrip].
  destruct (Py.isspace c) eqn:Hc; [exact IH|exact Hc].
Qed.

Lemma clean_reply_tidy (s : string) :
  all_chars clean_char (clean_reply s) = true /\ tidy (clean_reply s) = true.
Proof.
  unfold clean_reply, Py.strip.
  set (t3 := sub_runs (fun c => negb (re_word c || Py.isspace c || re_punct c))
                      false _).
  split.
  - apply all_chars_rstrip, all_chars_lstrip.
    assert (H3 : all_chars (fun c => re_word c || Py.isspace c || re_punct c
                                     || Ascii.eqb c " ") t3 = true).
    { eapply all_chars_impl; [|apply all_chars_sub_runs].
      intros c. cbv beta. rewrite negb_involutive.
      destruct (Ascii.eqb c " "), (re_word c || Py.isspace c || re_punct c);
        intros; try reflexivity; discriminate. }
    clearbody t3.
    assert (H4 : forall b s, all_chars (fun c => re_word c || Py.isspace c
                                     || re_punct c || Ascii.eqb c " ") s = true ->
               all_chars clean_char (sub_runs Py.isspace b s) = true).
    { clear. intros b s. revert b. induction s as [|c s IH]; intros b;
        [reflexivity|].
      cbn [all_chars sub_runs]. intros H. apply andb_true_iff in H as [Hc Hs].
      destruct (Py.isspace c) eqn:Hsp.
      - destruct b; [apply IH, Hs|]. cbn [all_chars]. rewrite (IH _ Hs).
        reflexivity.
      - cbn [all_chars]. rewrite (IH _ Hs). unfold clean_char.
        destruct (re_word c), (re_punct c), (Ascii.eqb c " ");
          try reflexivity; discriminate. }
    apply H4, H3.
  - pose proof (spaced_sub_runs false t3) as Hsp.
    apply spaced_lstrip in Hsp.
    destruct (Py.rstrip (Py.lstrip (sub_runs Py.isspace false t3)))
      as [|c r] eqn:Hr; [reflexivity|].
    cbn [tidy]. rewrite <- Hr. apply tidy_rstrip; [exact Hsp|].
    rewrite Hr. discriminate.
Qed.

(** X7.  A text that the normalizer returns (in either script) has at
    least 300 characters, is made only of word characters, the punctuation
    . , ! ? ; : ( ) - and quotes, and plain spaces, and is tidy: no white
    space at either end and never two spaces in a row. *)
Theorem normalizer_output (self : PlotFinder) (w : World)
    (raw_text movie_title year existing_plot clean_plot : string) :
  fst (_extract_plot_with_bedrock self w raw_text movie_title year
                                  existing_plot) = Some clean_plot
  \/ fst (WebPlotScraper.extract_plot_with_bedrock w raw_text movie_title year
                                                   existing_plot)
     = Some clean_plot ->
  300 <= String.length clean_plot /\
  all_chars clean_char clean_plot = true /\
  tidy clean_plot = true.
Proof.
  intros H.
  assert (Hreply : exists reply, plot_of_reply reply = Some clean_plot).
  { destruct H as [H|H]; eexists; exact H. }
  destruct Hreply as [reply Hreply].
  split; [apply (plot_of_reply_length _ _ Hreply)|].
  unfold plot_of_reply in Hreply. destruct reply as [text|]; [|discriminate].
  destruct (Py.contains "NO_PLOT_FOUND" (Py.strip text)); [discriminate|].
  destruct (300 <=? String.length (clean_reply (Py.strip text)));
    [|discriminate].
  injection Hreply as <-. apply clean_reply_tidy.
Qed.

Lemma normalizer_output_witness :
  tidy (default "" (fst (_extract_plot_with_bedrock Sample.finder Fixture.chatty
                           Sample.plot_450 "Test Film" "2020" "short")))
  = true.
Proof.
  apply (normalizer_output Sample.finder Fixture.chatty Sample.plot_450
           "Test Film" "2020" "short").
  left. by_computation.
Defined.

(** ** More on the orchestrator *)

Lemma emit_nil (s : State) : emit [] s = s.
Proof. destruct s as [d e]. unfold emit. cbn. rewrite app_nil_r. reflexivity. Qed.

Lemma lookup_refreshed (k : string) (md : gmap string string) :
  k <> "web_plot" -> k <> "plot_source" -> refreshed md !! k = md !! k.
Proof.
  intros H1 H2. unfold refreshed, clear_web_plot.
  destruct (_ && _); [|reflexivity].
  rewrite !lookup_insert_ne by congruence. reflexivity.
Qed.

(** A run in three cases: no such file, a record that is not eligible, an
    eligible one. *)
Lemma process_cases (self : PlotFinder) (w : World) (today path : string)
    (s : State) :
  let out := process_movie_file self w today path s in
  (out = (Failure Raised None, s) /\ disk s !! path = None)
  \/ (exists md, disk s !! path = Some md /\ snd out = s /\
                 forall t n, fst out <> Success t (updated n))
  \/ (exists md, disk s !! path = Some md /\
        let search := _search_movie_plot self w (field "title" md)
                                         (field "year" md) in
        match fst search with
        | None => out = (Failure NoValidPlotFound (Some (field "title" md)),
                         emit (snd search) s)
        | Some raw =>
            let cleaning :=
              _extract_plot_with_bedrock self w raw (field "title" md)
                                         (field "year" md) (field "plot" md) in
            let md' := committed today raw (fst cleaning) (refreshed md) in
            300 <= String.length (field "web_plot" md') /\
            out = (Success (field "title" md)
                           (updated (String.length (field "web_plot" md'))),
                   write_file path md'
                     (emit (snd cleaning) (emit (snd search) s)))
        end).
Proof.
  cbv zeta. destruct (disk s !! path) as [md|] eqn:Hmd.
  2:{ left. split; [apply process_missing, Hmd|reflexivity]. }
  right. destruct (eligible md) eqn:Hel.
  2:{ left. exists md. rewrite (process_ineligible _ _ _ _ _ _ Hmd Hel).
      split; [reflexivity|]. split; [reflexivity|]. intros t n. cbn [fst].
      destruct (negb (Py.truth (field "title" md))), (already_enhanced md);
        discriminate. }
  right. exists md. split; [reflexivity|].
  rewrite (process_eligible _ _ _ _ _ _ Hmd Hel). cbv zeta.
  destruct (fst (_search_movie_plot self w (field "title" md) (field "year" md)))
    as [raw|] eqn:Hsearch; [|reflexivity].
  split; [|reflexivity].
  set (cleaning := _extract_plot_with_bedrock _ _ _ _ _ _).
  unfold field at 1.
  destruct (committed_lookup today raw (fst cleaning) (refreshed md)) as [-> _].
  destruct (fst cleaning) as [c|] eqn:Hc; cbn.
  - unfold cleaning, _extract_plot_with_bedrock, call in Hc. cbn [fst] in Hc.
    apply (plot_of_reply_length _ _ Hc).
  - apply valid_length, (search_result_valid _ _ _ _ _ Hsearch).
Qed.

(** X8.  A run writes exactly when it reports [updated]: then it writes
    one record, to its own file and to no other, stamped with the date of
    the run, and the length it reports is the length of the stored enriched
    plot, at least 300; in every other case nothing is written and the
    disk is as before. *)
Theorem commit_only_when_updated (self : PlotFinder) (w : World)
    (today path : string) (s : State) :
  let out := process_movie_file self w today path s in
  exists evs,
    events (snd out) = events s ++ evs /\
    match fst out with
    | Success _ (updated n) =>
        exists md', written evs = [md'] /\
                    disk (snd out) = <[path := md']> (disk s) /\
                    n = String.length (field "web_plot" md') /\
                    300 <= n /\
                    md' !! "last_updated" = Some today
    | _ => written evs = [] /\ disk (snd out) = disk s
    end.
Proof.
  cbv zeta.
  destruct (process_cases self w today path s)
    as [[-> _]|[(md & _ & Hs & Hnot)|(md & _ & H)]].
  - exists []. rewrite app_nil_r. repeat split.
  - rewrite Hs. exists []. rewrite app_nil_r. split; [reflexivity|].
    destruct (fst (process_movie_file self w today path s)) as [t [| |n]|];
      try (split; reflexivity).
    destruct (Hnot t n eq_refl).
  - cbv zeta in H.
    destruct (fst (_search_movie_plot self w (field "title" md)
                     (field "year" md))) as [raw|].
    + destruct H as [Hlen ->]. cbn [fst snd write_file emit events disk].
      eexists. rewrite <- !app_assoc. split; [reflexivity|].
      eexists. split; [|split; [reflexivity|split; [reflexivity|split;
        [exact Hlen|]]]].
      * rewrite !written_app. unfold _search_movie_plot.
        rewrite written_scan_queries. reflexivity.
      * unfold committed. apply lookup_insert_eq.
    + rewrite H. cbn [fst snd emit events disk]. eexists.
      split; [reflexivity|]. split; [|reflexivity].
      apply written_scan_queries.
Qed.

(** X9.  Whatever a run does to a record, it changes no field other than
    web_plot, raw_web_plot, plot_source and last_updated: title, year,
    plot and every field the code does not know are as they were. *)
Theorem process_preserves_fields (self : PlotFinder) (w : World)
    (today path : string) (s : State) (md md' : gmap string string) (k : string) :
  disk s !! path = Some md ->
  disk (snd (process_movie_file self w today path s)) !! path = Some md' ->
  k <> "web_plot" -> k <> "raw_web_plot" -> k <> "plot_source" ->
  k <> "last_updated" ->
  md' !! k = md !! k.
Proof.
  intros Hmd Hmd' K1 K2 K3 K4.
  destruct (process_cases self w today path s)
    as [[_ Hnone]|[(md0 & _ & Hs & _)|(md0 & Hmd0 & H)]].
  - congruence.
  - rewrite Hs in Hmd'. congruence.
  - assert (md0 = md) by congruence. subst md0. cbv zeta in H.
    destruct (fst (_search_movie_plot self w (field "title" md)
                     (field "year" md))) as [raw|].
    + destruct H as [_ H]. rewrite H in Hmd'. cbn [snd write_file disk] in Hmd'.
      rewrite lookup_insert_eq in Hmd'. injection Hmd' as <-.
      destruct (committed_lookup today raw
                  (fst (_extract_plot_with_bedrock self w raw (field "title" md)
                          (field "year" md) (field "plot" md))) (refreshed md))
        as (_ & _ & Hother & _).
      rewrite Hother by assumption. apply lookup_refreshed; assumption.
    + rewrite H in Hmd'. cbn [snd emit disk] in Hmd'. congruence.
Qed.

Lemma process_preserves_fields_witness :
  committed "2024-05-01" Sample.plot_450 None Sample.record !! "title"
  = Sample.record !! "title".
Proof.
  apply (process_preserves_fields Sample.finder Sample.long_article
           "2024-05-01" Sample.movie_file Sample.fresh);
    try by_computation; discriminate.
Defined.

(** X10.  Without a Serper API key nothing is searched: the search makes
    no request and finds nothing, and a run on an eligible record fails
    with "No valid plot found", the state exactly as it was. *)
Theorem no_key_fails_quietly (self : PlotFinder) (w : World)
    (today path : string) (s : State) (md : gmap string string) :
  Py.truth (serper_api_key self) = false ->
  disk s !! path = Some md ->
  eligible md = true ->
  _search_movie_plot self w (field "title" md) (field "year" md) = (None, [])
  /\ process_movie_file self w today path s
     = (Failure NoValidPlotFound (Some (field "title" md)), s).
Proof.
  intros Hkey Hmd Hel.
  assert (Hsearch : _search_movie_plot self w (field "title" md)
                      (field "year" md) = (None, []))
    by apply (scan_queries_no_key _ _ _ Hkey).
  split; [exact Hsearch|].
  rewrite (process_eligible _ _ _ _ _ _ Hmd Hel). cbv zeta.
  rewrite Hsearch. cbn [fst snd]. rewrite emit_nil. reflexivity.
Qed.

Lemma no_key_fails_quietly_witness :
  process_movie_file (new_PlotFinder (fun _ => "") "") Sample.long_article
                     "2024-05-01" Sample.movie_file Sample.fresh
  = (Failure NoValidPlotFound (Some "Test Film"), Sample.fresh).
Proof.
  apply (no_key_fails_quietly (new_PlotFinder (fun _ => "") "")
           Sample.long_article "2024-05-01" Sample.movie_file Sample.fresh
           Sample.record); by_computation.
Defined.

(** ** The batch drivers *)

(** What one run does to the state, for the batch. *)
Lemma process_effect (self : PlotFinder) (w : World) (today path : string)
    (s : State) :
  let out := process_movie_file self w today path s in
  exists evs,
    events (snd out) = events s ++ evs /\
    (forall p, p <> path -> disk (snd out) !! p = disk s !! p) /\
    length (written evs)
    = match fst out with Success _ (updated _) => 1 | _ => 0 end.
Proof.
  cbv zeta.
  destruct (process_cases self w today path s)
    as [[-> _]|[(md & _ & Hs & Hnot)|(md & _ & H)]].
  - exists []. rewrite app_nil_r. repeat split.
  - rewrite Hs. exists []. rewrite app_nil_r. repeat split.
    destruct (fst (process_movie_file self w today path s)) as [t [| |n]|];
      try reflexivity.
    destruct (Hnot t n eq_refl).
  - cbv zeta in H.
    destruct (fst (_search_movie_plot self w (field "title" md)
                     (field "year" md))) as [raw|].
    + destruct H as [_ ->]. cbn [fst snd write_file emit events disk].
      eexists. rewrite <- !app_assoc. split; [reflexivity|]. split.
      * intros p Hp. apply lookup_insert_ne. congruence.
      * rewrite !written_app, !length_app. unfold _search_movie_plot.
        rewrite written_scan_queries. reflexivity.
    + rewrite H. cbn [fst snd emit events disk]. eexists.
      split; [reflexivity|]. split; [reflexivity|].
      unfold _search_movie_plot. rewrite written_scan_queries. reflexivity.
Qed.

Lemma count_result_total (c : Counts) (r : Result) :
  total_count (count_result c r) = S (total_count c) /\
  successful_updates (count_result c r)
  = successful_updates c
    + match r with Success _ (updated _) => 1 | _ => 0 end.
Proof.
  unfold total_count. destruct r as [t [| |n]|e t]; cbn; lia.
Qed.

Lemma batch_spec (self : PlotFinder) (w : World) (today : string)
    (files : list string) (acc : Counts * State) :
  let done := fold_left (process_next self w today) files acc in
  step_ok (snd acc) (snd done) /\
  (forall p, ~ In p files -> disk (snd done) !! p = disk (snd acc) !! p) /\
  (exists evs, events (snd done) = events (snd acc) ++ evs /\
               successful_updates (fst done)
               = successful_updates (fst acc) + length (written evs)) /\
  total_count (fst done) = total_count (fst acc) + length files.
Proof.
  cbv zeta. revert acc. induction files as [|f rest IH]; intros acc.
  { cbn [fold_left length]. split; [apply step_ok_refl|]. split; [reflexivity|].
    split; [exists []; rewrite app_nil_r; cbn; split; [reflexivity|lia]|lia]. }
  cbn [fold_left length].
  set (acc1 := process_next self w today acc f).
  assert (Hfst : fst acc1 = count_result (fst acc)
                   (fst (process_movie_file self w today f (snd acc))))
    by reflexivity.
  assert (Hsnd : snd acc1 = snd (process_movie_file self w today f (snd acc)))
    by reflexivity.
  destruct (IH acc1) as (Hok & Hframe & (e2 & He2 & Hu2) & Htot).
  clearbody acc1. rewrite Hsnd in Hok, Hframe, He2. rewrite Hfst in Hu2, Htot.
  destruct (process_effect self w today f (snd acc)) as (e1 & He1 & Hf1 & Hw1).
  destruct (count_result_total (fst acc)
              (fst (process_movie_file self w today f (snd acc)))) as [Ht Hu].
  split; [eapply step_ok_trans; [apply process_step_ok|exact Hok]|].
  split.
  { intros p Hp. rewrite Hframe by (intros Hin; apply Hp; right; exact Hin).
    apply Hf1. intros ->. apply Hp. left; reflexivity. }
  split.
  { exists (e1 ++ e2). rewrite He2, He1, <- app_assoc. split; [reflexivity|].
    rewrite Hu2, Hu, written_app, length_app, Hw1. lia. }
  rewrite Htot, Ht. lia.
Qed.

(** X11.  The summary of [enhance_movie_plots_from_directory] adds up:
    it fails only for a missing or empty directory, leaving the state as it
    was; otherwise its total is the number of files listed and equals
    updated + skipped + failed, and updated is the number of files
    written. *)
Theorem summary_adds_up (getenv : string -> string) (w : World) (today : string)
    (movies_dir : option (list string)) (serper_api_key : string) (s : State) :
  let out := enhance_movie_plots_from_directory getenv w today movies_dir
                                                serper_api_key s in
  match fst out with
  | SummaryFailure _ =>
      (movies_dir = None \/ movies_dir = Some []) /\ snd out = s
  | SummaryCounts total_files updated_n skipped_n failed_n =>
      (exists movie_files, movies_dir = Some movie_files
                           /\ total_files = length movie_files) /\
      updated_n + skipped_n + failed_n = total_files /\
      exists evs, events (snd out) = events s ++ evs
                  /\ updated_n = length (written evs)
  end.
Proof.
  cbv zeta. unfold enhance_movie_plots_from_directory.
  destruct movies_dir as [[|f rest]|]; cbn [fst snd]; auto.
  destruct (batch_spec (new_PlotFinder getenv serper_api_key) w today (f :: rest)
              (no_counts, s)) as (_ & _ & (evs & He & Hu) & Htot).
  cbn [fst snd] in He, Hu, Htot.
  change (total_count no_counts) with 0 in Htot.
  change (successful_updates no_counts) with 0 in Hu.
  unfold total_count in Htot.
  split; [exists (f :: rest); split; reflexivity|].
  split; [lia|]. exists evs. split; [exact He|lia].
Qed.

(** X12.  The two batch drivers make the same run: on the same directory
    and with the same key they end in the same state, and
    [process_all_movies] answers true exactly when the summary counts at
    least one update. *)
Theorem batch_drivers_agree (getenv : string -> string) (w : World)
    (today : string) (movies_dir : option (list string))
    (serper_api_key : string) (s : State) :
  let summary := enhance_movie_plots_from_directory getenv w today movies_dir
                                                    serper_api_key s in
  process_all_movies (new_PlotFinder getenv serper_api_key) w today movies_dir s
  = (match fst summary with
     | SummaryCounts _ updated_n _ _ => 0 <? updated_n
     | SummaryFailure _ => false
     end, snd summary).
Proof.
  cbv zeta. unfold process_all_movies, enhance_movie_plots_from_directory.
  destruct movies_dir as [[|f rest]|]; reflexivity.
Qed.

(** X13.  A batch touches only the files of its listing: a file that is
    not listed is on disk after [process_all_movies] as it was before. *)
Theorem batch_leaves_other_files (self : PlotFinder) (w : World) (today : string)
    (movie_files : list string) (s : State) (path : string) :
  ~ In path movie_files ->
  disk (snd (process_all_movies self w today (Some movie_files) s)) !! path
  = disk s !! path.
Proof.
  intros Hp. unfold process_all_movies.
  destruct movie_files as [|f rest]; [reflexivity|]. cbn [snd].
  destruct (batch_spec self w today (f :: rest) (no_counts, s))
    as (_ & Hframe & _). apply (Hframe path Hp).
Qed.

Lemma batch_leaves_other_files_witness :
  disk (snd (process_all_movies Sample.finder Sample.long_article "2024-05-01"
               (Some [Sample.movie_file]) Sample.fresh)) !! "data/movies/other.json"
  = disk Sample.fresh !! "data/movies/other.json".
Proof.
  apply batch_leaves_other_files. intros [H|[]]. discriminate H.
Defined.

(** X14.  A batch in which no listed record is eligible (each is missing,
    has no title, has an adequate enriched plot or a long base plot) calls
    nothing, writes nothing and answers false, so that [main] exits with
    status 1 although nothing went wrong. *)
Theorem batch_nothing_to_do (env : Env) (w : World) (today : string)
    (args : Args) (movie_files : list string) (s : State) :
  arg_clean_invalid args = false ->
  Py.truth (arg_single_file args) = false ->
  listing env (if negb (Py.truth (arg_movies_dir args))
               then default_movies_dir env else arg_movies_dir args)
    = Some movie_files ->
  (forall f md, In f movie_files -> disk s !! f = Some md -> eligible md = false) ->
  main env w today args s = (false, s)
  /\ exit_status (fst (main env w today args s)) = 1.
Proof.
  intros Hclean Hsingle Hlist Hnone.
  assert (Hmain : main env w today args s = (false, s)).
  { unfold main. rewrite Hclean, Hsingle, Hlist. unfold process_all_movies.
    destruct movie_files as [|f rest]; [reflexivity|].
    set (self := new_PlotFinder _ _).
    assert (Hfold : forall files c,
              (forall f md, In f files -> disk s !! f = Some md ->
                            eligible md = false) ->
              exists c', fold_left (process_next self w today) files (c, s)
                         = (c', s)
                         /\ successful_updates c' = successful_updates c).
    { clear. induction files as [|f rest IH]; intros c H.
      - exists c. split; reflexivity.
      - cbn [fold_left]. unfold process_next at 2. cbn [fst snd].
        assert (Hstep : exists r, process_movie_file self w today f s = (r, s)
                          /\ forall t n, r <> Success t (updated n)).
        { destruct (disk s !! f) as [md|] eqn:Hmd.
          - rewrite (process_ineligible _ _ _ _ _ _ Hmd
                       (H f md (or_introl eq_refl) Hmd)).
            eexists. split; [reflexivity|]. intros t n.
            destruct (negb (Py.truth (field "title" md))),
              (already_enhanced md); discriminate.
          - rewrite (process_missing _ _ _ _ _ Hmd). eexists.
            split; [reflexivity|]. discriminate. }
        destruct Hstep as (r & -> & Hr). cbn [fst snd].
        destruct (IH (count_result c r)) as (c' & -> & Hc').
        { intros f' md Hin. apply H. right; exact Hin. }
        exists c'. split; [reflexivity|]. rewrite Hc'.
        destruct r as [t [| |n]|e t]; try reflexivity.
        destruct (Hr t n eq_refl). }
    destruct (Hfold (f :: rest) no_counts Hnone) as (c' & -> & Hc').
    cbn [fst snd]. rewrite Hc'. reflexivity. }
  rewrite Hmain. split; reflexivity.
Qed.

Lemma batch_nothing_to_do_witness :
  main Fixture.shell Sample.cookie_walls "2024-05-02" Fixture.batch_args
       Fixture.enriched = (false, Fixture.enriched).
Proof.
  apply (batch_nothing_to_do Fixture.shell Sample.cookie_walls "2024-05-02"
           Fixture.batch_args [Sample.movie_file] Fixture.enriched);
    try reflexivity.
  intros f md [<-|[]] Hmd.
  assert (Hrec : disk Fixture.enriched !! Sample.movie_file
                 = Some (committed "2024-05-01" Sample.plot_450 None
                                   Sample.record)) by by_computation.
  rewrite Hrec in Hmd. injection Hmd as <-. by_computation.
Defined.

(** ** More on the maintenance pass *)

Lemma clean_file_cases (today f : string) (acc : nat * State) :
  clean_file today acc f = acc /\ settled (snd acc) f
  \/ exists md, disk (snd acc) !! f = Some md /\
       Py.truth (field "web_plot" md)
       && negb (_is_valid_plot_content (field "web_plot" md)) = true /\
       clean_file today acc f
       = (S (fst acc), write_file f (blanked today md) (snd acc)).
Proof.
  unfold clean_file, settled.
  destruct (disk (snd acc) !! f) as [md|] eqn:Hmd.
  - destruct (Py.truth (field "web_plot" md)
              && negb (_is_valid_plot_content (field "web_plot" md))) eqn:Hbad.
    + right. exists md. repeat split. exact Hbad.
    + left. split; [reflexivity|]. intros md' [= <-]. exact Hbad.
  - left. split; [reflexivity|]. intros md' [=].
Qed.

Lemma settled_blanked (today f p : string) (md : gmap string string) (s : State) :
  (p = f \/ settled s p) -> settled (write_file f (blanked today md) s) p.
Proof.
  intros H md' Hmd'. cbn [write_file disk] in Hmd'.
  destruct (decide (f = p)) as [->|Hne].
  - rewrite lookup_insert_eq in Hmd'. injection Hmd' as <-.
    rewrite field_blanked_web_plot. reflexivity.
  - rewrite lookup_insert_ne in Hmd' by exact Hne.
    destruct H as [->|H]; [congruence|]. apply (H md' Hmd').
Qed.

Lemma clean_file_settles (today f p : string) (acc : nat * State) :
  (p = f \/ settled (snd acc) p) -> settled (snd (clean_file today acc f)) p.
Proof.
  intros H. destruct (clean_file_cases today f acc)
    as [[-> Hf]|(md & _ & _ & ->)].
  - destruct H as [->|H]; assumption.
  - cbn [snd]. apply settled_blanked, H.
Qed.

Lemma pass_settles (today : string) (files : list string) (acc : nat * State)
    (p : string) :
  (In p files \/ settled (snd acc) p) ->
  settled (snd (fold_left (clean_file today) files acc)) p.
Proof.
  revert acc. induction files as [|f rest IH]; intros acc H.
  { destruct H as [[]|H]. exact H. }
  cbn [fold_left]. apply IH.
  destruct H as [[->|Hin]|H].
  - right. apply clean_file_settles. left; reflexivity.
  - left; exact Hin.
  - right. apply clean_file_settles. right; exact H.
Qed.

Lemma pass_on_settled (today : string) (files : list string) (acc : nat * State) :
  (forall f, In f files -> settled (snd acc) f) ->
  fold_left (clean_file today) files acc = acc.
Proof.
  revert acc. induction files as [|f rest IH]; intros acc H; [reflexivity|].
  cbn [fold_left].
  assert (Hf : clean_file today acc f = acc).
  { destruct (clean_file_cases today f acc) as [[Heq _]|(md & Hmd & Hbad & _)];
      [exact Heq|].
    rewrite (H f (or_introl eq_refl) md Hmd) in Hbad. discriminate Hbad. }
  rewrite Hf. apply IH. intros f' Hin. apply H. right; exact Hin.
Qed.

(** X15.  The maintenance pass is idempotent: a second pass over the same
    listing, right after the first, writes nothing, leaves the state as
    it is and answers false. *)
Theorem maintenance_idempotent (today today' : string)
    (movies_dir : option (list string)) (s : State) :
  let s1 := snd (clean_invalid_plots today movies_dir s) in
  clean_invalid_plots today' movies_dir s1 = (false, s1).
Proof.
  cbv zeta. unfold clean_invalid_plots.
  destruct movies_dir as [files|]; [|reflexivity]. cbn [snd].
  rewrite pass_on_settled; [reflexivity|].
  intros f Hin. cbn [snd]. apply pass_settles. left; exact Hin.
Qed.

Lemma pass_events (today : string) (files : list string) (acc : nat * State) :
  let done := fold_left (clean_file today) files acc in
  exists evs,
    events (snd done) = events (snd acc) ++ evs /\
    List.filter is_network evs = [] /\
    length (written evs) = length evs /\
    fst done = fst acc + length evs.
Proof.
  cbv zeta. revert acc. induction files as [|f rest IH]; intros acc.
  { exists []. rewrite app_nil_r. cbn. repeat split; lia. }
  cbn [fold_left]. destruct (IH (clean_file today acc f))
    as (e2 & He2 & Hn2 & Hw2 & Hc2).
  destruct (clean_file_cases today f acc) as [[Heq _]|(md & _ & _ & Heq)];
    rewrite Heq in He2, Hc2.
  - exists e2. rewrite Heq. repeat split; assumption.
  - cbn [fst snd write_file events] in He2, Hc2.
    exists (FileWrite f (blanked today md) :: e2). rewrite <- app_assoc in He2.
    rewrite Heq. split; [exact He2|]. split; [exact Hn2|].
    split; [cbn [written flat_map app length] in *; unfold written in Hw2;
            rewrite Hw2; reflexivity|].
    rewrite Hc2. cbn [length]. lia.
Qed.

Lemma maintenance_offline_aux (today : string)
    (movies_dir : option (list string)) (s : State) :
  let out := clean_invalid_plots today movies_dir s in
  exists evs,
    events (snd out) = events s ++ evs /\
    length (written evs) = length evs /\
    fst out = (0 <? length evs).
Proof.
  cbv zeta. unfold clean_invalid_plots. destruct movies_dir as [files|].
  - destruct (pass_events today files (0, s)) as (evs & He & Hn & Hw & Hc).
    exists evs. cbn [fst snd] in *. rewrite Hc. repeat split; assumption.
  - exists []. rewrite app_nil_r. repeat split.
Qed.

(** X16.  The maintenance pass works offline and reports what it did: it
    makes no network call, the events it adds are the file writes, and it
    answers true exactly when it wrote at least one file. *)
Theorem maintenance_offline (today : string) (movies_dir : option (list string))
    (s : State) :
  let out := clean_invalid_plots today movies_dir s in
  exists evs,
    events (snd out) = events s ++ evs /\
    List.filter is_network evs = [] /\
    length (written evs) = length evs /\
    fst out = (0 <? length evs).
Proof.
  cbv zeta. unfold clean_invalid_plots. destruct movies_dir as [files|].
  - destruct (pass_events today files (0, s)) as (evs & He & Hn & Hw & Hc).
    exists evs. cbn [fst snd] in *. rewrite Hc. repeat split; assumption.
  - exists []. rewrite app_nil_r. repeat split.
Qed.

Lemma pass_spares (today : string) (files : list string) (acc : nat * State)
    (path : string) :
  ~ In path files \/ settled (snd acc) path ->
  disk (snd (fold_left (clean_file today) files acc)) !! path
  = disk (snd acc) !! path.
Proof.
  revert acc. induction files as [|f rest IH]; intros acc H; [reflexivity|].
  cbn [fold_left].
  assert (Hstep : disk (snd (clean_file today acc f)) !! path
                  = disk (snd acc) !! path).
  { destruct (clean_file_cases today f acc) as [[-> _]|(md & Hmd & Hbad & ->)];
      [reflexivity|].
    cbn [snd write_file disk]. apply lookup_insert_ne. intros ->.
    destruct H as [H|H]; [apply H; left; reflexivity|].
    rewrite (H md Hmd) in Hbad. discriminate Hbad. }
  rewrite <- Hstep. apply IH. destruct H as [H|H].
  - left. intros Hin. apply H. right; exact Hin.
  - right. intros md Hmd. rewrite Hstep in Hmd. apply (H md Hmd).
Qed.

(** X17.  The maintenance pass leaves alone every file that is not
    listed and every record whose enriched plot is empty or passes the
    validator: such a file is on disk afterwards exactly as before. *)
Theorem maintenance_spares_valid (today : string)
    (movies_dir : option (list string)) (s : State) (path : string) :
  (match movies_dir with Some files => ~ In path files | None => True end)
  \/ settled s path ->
  disk (snd (clean_invalid_plots today movies_dir s)) !! path = disk s !! path.
Proof.
  unfold clean_invalid_plots. destruct movies_dir as [files|]; [|reflexivity].
  cbn [snd]. intros H. apply (pass_spares today files (0, s) path H).
Qed.

Lemma maintenance_spares_valid_witness :
  disk (snd (clean_invalid_plots "2024-05-02" (Some [Sample.movie_file])
                                 Fixture.enriched)) !! Sample.movie_file
  = disk Fixture.enriched !! Sample.movie_file.
Proof.
  apply maintenance_spares_valid. right. intros md Hmd.
  assert (Hrec : disk Fixture.enriched !! Sample.movie_file
                 = Some (committed "2024-05-01" Sample.plot_450 None
                                   Sample.record)) by by_computation.
  rewrite Hrec in Hmd. injection Hmd as <-. by_computation.
Defined.

(** X18.  In the batch mode and in the clean mode [main] succeeds (exit
    status 0) exactly when the run wrote at least one movie file. *)
Theorem main_succeeds_when_it_writes (env : Env) (w : World) (today : string)
    (args : Args) (s : State) :
  arg_clean_invalid args = true \/ Py.truth (arg_single_file args) = false ->
  let out := main env w today args s in
  exists evs,
    events (snd out) = events s ++ evs /\
    fst out = (0 <? length (written evs)) /\
    (exit_status (fst out) = 0 <-> written evs <> []).
Proof.
  intros Hmode. cbv zeta.
  assert (Hexit : forall b evs, b = (0 <? length (written evs)) ->
            (exit_status b = 0 <-> written evs <> [])).
  { intros b evs ->. destruct (written evs); cbn; split;
      congruence || discriminate. }
  unfold main. destruct (arg_clean_invalid args).
  - destruct (maintenance_offline_aux today
                (listing env (if negb (Py.truth (arg_movies_dir args))
                              then default_movies_dir env
                              else arg_movies_dir args)) s)
      as (evs & He & Hw & Hr).
    exists evs. rewrite Hr, Hw. split; [exact He|]. split; [reflexivity|].
    apply Hexit. rewrite Hw. reflexivity.
  - destruct Hmode as [Hmode|Hmode]; [discriminate Hmode|]. rewrite Hmode.
    unfold process_all_movies.
    destruct (listing env _) as [[|f rest]|].
    + exists []. rewrite app_nil_r. repeat split; try apply (Hexit false []);
        reflexivity.
    + destruct (batch_spec (new_PlotFinder (getenv env) (arg_serper_key args))
                  w today (f :: rest) (no_counts, s))
        as (_ & _ & (evs & He & Hu) & _).
      cbn [fst snd] in *. change (successful_updates no_counts) with 0 in Hu.
      exists evs. rewrite Hu. split; [exact He|]. split; [reflexivity|].
      apply Hexit. reflexivity.
    + exists []. rewrite app_nil_r. repeat split; try apply (Hexit false []);
        reflexivity.
Qed.

Lemma main_succeeds_when_it_writes_witness :
  exists evs,
    events (snd (main Fixture.shell Sample.long_article "2024-05-01"
                      Fixture.batch_args Sample.fresh))
    = events Sample.fresh ++ evs /\
    fst (main Fixture.shell Sample.long_article "2024-05-01"
              Fixture.batch_args Sample.fresh)
    = (0 <? length (written evs)).
Proof.
  destruct (main_succeeds_when_it_writes Fixture.shell Sample.long_article
              "2024-05-01" Fixture.batch_args Sample.fresh)
    as (evs & He & Hf & _); [right; reflexivity|].
  exists evs. split; assumption.
Defined.

(** ** Dropping the enrichment *)

Lemma remove_field_fst (acc : gmap string string * list string) (f : string) :
  fst (CleanMovieData.remove_field acc f) = delete f (fst acc) /\
  (snd (CleanMovieData.remove_field acc f) = []
   <-> snd acc = [] /\ fst acc !! f = None).
Proof.
  unfold CleanMovieData.remove_field.
  destruct (fst acc !! f) eqn:Hf; cbn [fst snd].
  - split; [reflexivity|]. split.
    + intros H. destruct (snd acc); discriminate H.
    + intros [_ H]. discriminate H.
  - split; [symmetry; apply delete_id, Hf|]. tauto.
Qed.

Lemma clean_movie_file_eq (path : string) (s : State) :
  CleanMovieData.clean_movie_file path s
  = match disk s !! path with
    | None => s
    | Some md => if has_enrichment md then write_file path (stripped md) s else s
    end.
Proof.
  unfold CleanMovieData.clean_movie_file.
  destruct (disk s !! path) as [md|]; [|reflexivity].
  unfold CleanMovieData.fields_to_remove. cbn [fold_left].
  set (a1 := CleanMovieData.remove_field (md, []) "web_plot").
  set (a2 := CleanMovieData.remove_field a1 "raw_web_plot").
  set (a3 := CleanMovieData.remove_field a2 "plot_source").
  destruct (remove_field_fst (md, []) "web_plot") as [F1 S1].
  destruct (remove_field_fst a1 "raw_web_plot") as [F2 S2].
  destruct (remove_field_fst a2 "plot_source") as [F3 S3].
  fold a1 in F1, S1, F2, S2. fold a2 in F2, S2, F3, S3. fold a3 in F3, S3.
  cbn [fst snd] in F1, S1.
  assert (Hfst : fst a3 = stripped md).
  { unfold stripped. rewrite F3, F2, F1. reflexivity. }
  assert (Hsnd : snd a3 = [] <-> has_enrichment md = false).
  { rewrite S3, S2, S1, F2, F1. unfold has_enrichment.
    rewrite !orb_false_iff, !bool_decide_eq_false, <- !eq_None_not_Some.
    rewrite !lookup_delete_ne by discriminate. tauto. }
  rewrite Hfst. destruct (snd a3) as [|x l].
  - rewrite (proj1 Hsnd eq_refl). reflexivity.
  - destruct (has_enrichment md); [reflexivity|].
    destruct Hsnd as [_ Hsnd]. discriminate (Hsnd eq_refl).
Qed.

Lemma stripped_lookup (md : gmap string string) :
  stripped md !! "web_plot" = None /\
  stripped md !! "raw_web_plot" = None /\
  stripped md !! "plot_source" = None /\
  (forall k, k <> "web_plot" -> k <> "raw_web_plot" -> k <> "plot_source" ->
             stripped md !! k = md !! k) /\
  has_enrichment (stripped md) = false.
Proof.
  unfold stripped, has_enrichment.
  repeat split; intros; simplify_map_eq; reflexivity.
Qed.

Lemma stripped_id (md : gmap string string) :
  has_enrichment md = false -> stripped md = md.
Proof.
  unfold has_enrichment, stripped. rewrite !orb_false_iff, !bool_decide_eq_false,
    <- !eq_None_not_Some.
  intros [[H1 H2] H3]. rewrite (delete_id _ _ H1), (delete_id _ _ H2).
  apply delete_id, H3.
Qed.

(** X19.  [clean_movie_file] leaves an existing record without web_plot,
    raw_web_plot and plot_source and with every other field as it was; it
    writes the file only if one of the three was there; and to clean the
    file again changes nothing. *)
Theorem clean_movie_file_drops_enrichment (path : string) (s : State)
    (md : gmap string string) :
  disk s !! path = Some md ->
  let s' := CleanMovieData.clean_movie_file path s in
  exists md',
    disk s' !! path = Some md' /\
    md' !! "web_plot" = None /\ md' !! "raw_web_plot" = None /\
    md' !! "plot_source" = None /\
    (forall k, k <> "web_plot" -> k <> "raw_web_plot" -> k <> "plot_source" ->
               md' !! k = md !! k) /\
    events s' = events s
                ++ (if has_enrichment md then [FileWrite path md'] else []) /\
    CleanMovieData.clean_movie_file path s' = s'.
Proof.
  intros Hmd. cbv zeta. rewrite !clean_movie_file_eq, Hmd.
  destruct (stripped_lookup md) as (H1 & H2 & H3 & Hother & Hnone).
  exists (stripped md). destruct (has_enrichment md) eqn:Hhas.
  - cbn [write_file disk events]. rewrite lookup_insert_eq, Hnone.
    repeat split; auto.
  - rewrite Hmd, Hhas, app_nil_r. rewrite (stripped_id md Hhas) in *.
    repeat split; auto.
Qed.

Lemma clean_movie_file_drops_enrichment_witness :
  exists md',
    disk (CleanMovieData.clean_movie_file Sample.movie_file Sample.spoiled_disk)
      !! Sample.movie_file = Some md' /\
    md' !! "web_plot" = None.
Proof.
  destruct (clean_movie_file_drops_enrichment Sample.movie_file
              Sample.spoiled_disk Sample.spoiled) as (md' & H & H1 & _).
  - by_computation.
  - exists md'. split; assumption.
Defined.

(** X20.  After [clean_movie_file] a record counts as never enriched: it
    satisfies the provenance invariant, the orchestrator's eligibility is
    decided by its title and the length of its base plot alone, and the
    next run does not answer [existing]. *)
Theorem cleaned_record_is_fresh (path : string) (s : State)
    (md : gmap string string) :
  disk s !! path = Some md ->
  let s' := CleanMovieData.clean_movie_file path s in
  exists md',
    disk s' !! path = Some md' /\
    provenance_ok md' /\
    eligible md'
    = Py.truth (field "title" md) && (String.length (field "plot" md) <? 800) /\
    forall (self : PlotFinder) (w : World) (today title : string),
      fst (process_movie_file self w today path s') <> Success title existing.
Proof.
  intros Hmd. cbv zeta.
  destruct (stripped_lookup md) as (H1 & _ & _ & Hother & _).
  assert (Hdisk : disk (CleanMovieData.clean_movie_file path s) !! path
                  = Some (stripped md)).
  { rewrite clean_movie_file_eq, Hmd. destruct (has_enrichment md) eqn:Hhas.
    - cbn [write_file disk]. apply lookup_insert_eq.
    - rewrite (stripped_id md Hhas). exact Hmd. }
  assert (Hplot : field "web_plot" (stripped md) = "")
    by (unfold field; rewrite H1; reflexivity).
  assert (Hnew : already_enhanced (stripped md) = false)
    by (unfold already_enhanced; rewrite Hplot; reflexivity).
  assert (Hel : eligible (stripped md)
                = Py.truth (field "title" md)
                  && (String.length (field "plot" md) <? 800)).
  { unfold eligible. rewrite Hnew. unfold field.
    rewrite !Hother by discriminate. cbn [negb]. rewrite andb_true_r.
    reflexivity. }
  exists (stripped md). split; [exact Hdisk|]. split.
  { intros H. rewrite Hplot in H. discriminate H. }
  split; [exact Hel|].
  intros self w today title Hrun.
  destruct (eligible (stripped md)) eqn:Hel'.
  - rewrite (process_eligible _ _ _ _ _ _ Hdisk Hel') in Hrun.
    cbv zeta in Hrun. destruct (fst (_search_movie_plot _ _ _ _));
      discriminate Hrun.
  - rewrite (process_ineligible _ _ _ _ _ _ Hdisk Hel') in Hrun.
    rewrite Hnew in Hrun. cbn [fst] in Hrun.
    destruct (negb (Py.truth _)); discriminate Hrun.
Qed.

Lemma cleaned_record_is_fresh_witness :
  exists md',
    disk (CleanMovieData.clean_movie_file Sample.movie_file Fixture.enriched)
      !! Sample.movie_file = Some md' /\
    eligible md' = true.
Proof.
  destruct (cleaned_record_is_fresh Sample.movie_file Fixture.enriched
              (committed "2024-05-01" Sample.plot_450 None Sample.record))
    as (md' & H & _ & Hel & _).
  - by_computation.
  - exists md'. split; [exact H|]. rewrite Hel. by_computation.
Defined.

(** ** The second implementation *)



(** X22.  The scraper's update writes at most one record, its own file,
    and only for a base plot under 500 characters and a found text of at
    least 500: the stored enriched plot then has at least 300 characters
    and the date of the run, and the fields other than web_plot,
    raw_web_plot, plot_source and last_updated are as they were; otherwise
    nothing is written and the disk is as before. *)
Theorem scraper_update_effect (w : World) (today path : string) (s : State) :
  let s' := WebPlotScraper.update_movie_plot w today path s in
  exists evs,
    events s' = events s ++ evs /\
    ((written evs = [] /\ disk s' = disk s)
     \/ exists md md' web_plot,
          disk s !! path = Some md /\
          String.length (field "plot" md) < 500 /\
          fst (WebPlotScraper.search_movie_plot w (field "title" md)
                                                (field "year" md))
            = Some web_plot /\
          500 <= String.length web_plot /\
          written evs = [md'] /\
          disk s' = <[path := md']> (disk s) /\
          300 <= String.length (field "web_plot" md') /\
          md' !! "last_updated" = Some today /\
          forall k, k <> "web_plot" -> k <> "raw_web_plot" ->
                    k <> "plot_source" -> k <> "last_updated" ->
                    md' !! k = md !! k).
Proof.
  cbv zeta. unfold WebPlotScraper.update_movie_plot.
  destruct (disk s !! path) as [md|] eqn:Hmd.
  2:{ exists []. rewrite app_nil_r. split; [reflexivity|]. left. split; reflexivity. }
  destruct (500 <=? String.length (field "plot" md)) eqn:Hplot.
  { exists []. rewrite app_nil_r. split; [reflexivity|]. left. split; reflexivity. }
  apply Nat.leb_gt in Hplot.
  set (search := WebPlotScraper.search_movie_plot w (field "title" md)
                   (field "year" md)).
  assert (Hws : written (snd search) = [])
    by apply scraper_written_search.
  destruct (fst search) as [web_plot|] eqn:Hsearch.
  2:{ exists (snd search). split; [reflexivity|]. left. split; [exact Hws|reflexivity]. }
  destruct (Py.truth web_plot && (500 <=? String.length web_plot)) eqn:Hbig.
  2:{ exists (snd search). split; [reflexivity|]. left. split; [exact Hws|reflexivity]. }
  apply andb_true_iff in Hbig as [_ Hbig]. apply Nat.leb_le in Hbig.
  set (cleaning := WebPlotScraper.extract_plot_with_bedrock w web_plot
                     (field "title" md) (field "year" md) (field "plot" md)).
  set (clean := match fst cleaning with
                | Some c => if Py.truth c then Some c else None
                | None => None
                end).
  assert (Hrec : <["last_updated" := today]>
                   match fst cleaning with
                   | Some clean_plot =>
                       if Py.truth clean_plot
                       then <["plot_source" := "web_scraped_bedrock_cleaned"]>
                              (<["raw_web_plot" := web_plot]>
                                 (<["web_plot" := clean_plot]> md))
                       else <["plot_source" := "web_scraped"]>
                              (<["web_plot" := web_plot]> md)
                   | None => <["plot_source" := "web_scraped"]>
                               (<["web_plot" := web_plot]> md)
                   end
                 = committed today web_plot clean md).
  { unfold clean, committed. destruct (fst cleaning) as [c|];
      [destruct (Py.truth c)|]; reflexivity. }
  rewrite Hrec. cbn [write_file emit events disk].
  eexists. rewrite <- !app_assoc. split; [reflexivity|]. right.
  exists md, (committed today web_plot clean md), web_plot.
  destruct (committed_lookup today web_plot clean md)
    as (Hwp & _ & Hother & _).
  split; [reflexivity|]. split; [exact Hplot|]. split; [exact Hsearch|].
  split; [exact Hbig|]. split.
  { rewrite !written_app, Hws. reflexivity. }
  split; [reflexivity|]. split.
  { unfold field. rewrite Hwp. unfold clean.
    destruct (fst cleaning) as [c|] eqn:Hc; [destruct (Py.truth c)|];
      cbn; try lia.
    unfold cleaning, WebPlotScraper.extract_plot_with_bedrock, call in Hc.
    cbn [fst] in Hc. apply (plot_of_reply_length _ _ Hc). }
  split; [unfold committed; apply lookup_insert_eq|].
  intros k K1 K2 K3 K4. apply Hother; assumption.
Qed.

(** ** The invariant at every entry point *)

Lemma clean_movie_file_step_ok (path : string) (s : State) :
  step_ok s (CleanMovieData.clean_movie_file path s).
Proof.
  rewrite clean_movie_file_eq.
  destruct (disk s !! path) as [md|]; [|apply step_ok_refl].
  destruct (has_enrichment md); [|apply step_ok_refl].
  apply step_ok_write. intros H. unfold field in H.
  destruct (stripped_lookup md) as [Hnone _]. rewrite Hnone in H.
  discriminate H.
Qed.

Lemma fold_step_ok (step : State -> string -> State) (files : list string)
    (s : State) :
  (forall s f, step_ok s (step s f)) -> step_ok s (fold_left step files s).
Proof.
  intros H. revert s. induction files as [|f rest IH]; intros s;
    [apply step_ok_refl|].
  cbn [fold_left]. eapply step_ok_trans; [apply H|apply IH].
Qed.

(** X23.  Every entry point of the three scripts keeps the provenance
    invariant: the batch drivers, the command line of plot_finder in each
    of its modes, the scraper's [main] and the clean-up's [main] write only
    records that satisfy it and take a disk on which every record satisfies
    it to such a disk. *)
Theorem entry_points_keep_provenance (env : Env) (w : World) (today : string)
    (args : Args) (self : PlotFinder) (movies_dir : option (list string))
    (serper_api_key : string) (s : State) :
  step_ok s (snd (process_all_movies self w today movies_dir s)) /\
  step_ok s (snd (enhance_movie_plots_from_directory (getenv env) w today
                    movies_dir serper_api_key s)) /\
  step_ok s (snd (main env w today args s)) /\
  step_ok s (WebPlotScraper.main w today movies_dir s) /\
  step_ok s (CleanMovieData.main movies_dir s).
Proof.
  assert (Hall : forall self dir,
            step_ok s (snd (process_all_movies self w today dir s))).
  { intros self0 dir. unfold process_all_movies.
    destruct dir as [[|f rest]|]; try apply step_ok_refl. cbn [snd].
    destruct (batch_spec self0 w today (f :: rest) (no_counts, s)) as [H _].
    exact H. }
  split; [apply Hall|]. split.
  { unfold enhance_movie_plots_from_directory.
    destruct movies_dir as [[|f rest]|]; try apply step_ok_refl. cbn [snd].
    destruct (batch_spec (new_PlotFinder (getenv env) serper_api_key) w today
                (f :: rest) (no_counts, s)) as [H _].
    exact H. }
  split.
  { unfold main. destruct (arg_clean_invalid args); [apply clean_step_ok|].
    destruct (Py.truth (arg_single_file args)); [|apply Hall].
    cbn [snd]. apply process_step_ok. }
  split.
  - unfold WebPlotScraper.main. destruct movies_dir as [files|];
      [|apply step_ok_refl].
    apply (fold_step_ok
             (fun s f => WebPlotScraper.update_movie_plot w today f s)).
    intros s0 f. apply scraper_step_ok.
  - unfold CleanMovieData.main. destruct movies_dir as [files|];
      [|apply step_ok_refl].
    apply (fold_step_ok (fun s f => CleanMovieData.clean_movie_file f s)).
    intros s0 f. apply clean_movie_file_step_ok.
Qed.
